(** * node-postgres-api: the authentication gate and the request handlers

    A shallow embedding of [src/index.js].  The Express handlers are
    written in a small state-and-exception monad over a [World] that holds
    the PostgreSQL tables, the process environment and a trace of the
    calls made to the collaborators (pg, bcryptjs, jsonwebtoken). *)

From Stdlib Require Import String Ascii List ZArith Bool Lia.
From Stdlib Require Import DecimalString DecimalZ DecimalPos.
Import ListNotations.
Local Open Scope string_scope.
Local Open Scope list_scope.

(** ** JavaScript values *)

(** The values that travel through the handlers: fields of a JSON request
    body, query parameters, cells of a result row, claims of a token.
    Numbers are the integers (a JSON number is falsy exactly when it is
    zero), of a size JavaScript prints in full; strings are texts that
    PostgreSQL stores, without the character of code zero; an array or a
    nested object is carried as the text that node-postgres would send
    for it (its JSON text, for an object) and is always truthy. *)
Inductive jsval : Type :=
| JUndefined
| JNull
| JBool (b : bool)
| JNum (n : Z)
| JStr (s : string)
| JObject (text : string).

(** [!v] is [negb (truthy v)]. *)
Definition truthy (v : jsval) : bool :=
  match v with
  | JUndefined | JNull => false
  | JBool b => b
  | JNum n => negb (n =? 0)%Z
  | JStr s => negb (s =? "")
  | JObject _ => true
  end.

Definition jsval_eqb (a b : jsval) : bool :=
  match a, b with
  | JUndefined, JUndefined => true
  | JNull, JNull => true
  | JBool x, JBool y => Bool.eqb x y
  | JNum x, JNum y => (x =? y)%Z
  | JStr x, JStr y => (x =? y)
  | JObject x, JObject y => (x =? y)
  | _, _ => false
  end.

(** A plain object: its own properties, in order. *)
Definition object := list (string * jsval).

(** [o.k]: the property, or [undefined] when the object has none. *)
Fixpoint prop (o : object) (k : string) : jsval :=
  match o with
  | [] => JUndefined
  | (k', v) :: o' => if k' =? k then v else prop o' k
  end.

Definition has_key (o : object) (k : string) : bool :=
  existsb (fun kv => fst kv =? k) o.

(** An [Error] instance: [error.name] and [error.message]. *)
Record error : Type := mkError { err_name : string; err_message : string }.

(** The completion of an evaluation: a value, or a thrown error (a
    rejected promise, for the awaited calls). *)
Inductive completion (A : Type) : Type :=
| Normal (a : A)
| Throw (e : error).
Arguments Normal {A} a.
Arguments Throw {A} e.

(** ** Strings *)

(** [s.split(c)] for a one-character separator. *)
Fixpoint split (c : ascii) (s : string) : list string :=
  match s with
  | EmptyString => [""]
  | String a s' =>
      if Ascii.eqb a c then "" :: split c s'
      else match split c s' with
           | x :: xs => String a x :: xs
           | [] => [String a ""]
           end
  end.

(** [s.startsWith(p)]. *)
Definition startsWith (s p : string) : bool := String.prefix p s.

(** [!s] for a value that is a string or [undefined]. *)
Definition falsy (s : option string) : bool :=
  match s with
  | None => true
  | Some s => s =? ""
  end.

Definition space : ascii := " "%char.

Fixpoint no_space (s : string) : bool :=
  match s with
  | EmptyString => true
  | String a s' => negb (Ascii.eqb a space) && no_space s'
  end.

(** The part of [s] before its first space (all of [s] when it has none). *)
Fixpoint until_space (s : string) : string :=
  match s with
  | EmptyString => ""
  | String a s' => if Ascii.eqb a space then "" else String a (until_space s')
  end.

(** The part of [s] after its first space, when it has one. *)
Fixpoint after_space (s : string) : option string :=
  match s with
  | EmptyString => None
  | String a s' => if Ascii.eqb a space then Some s' else after_space s'
  end.

(** The substring of a header between its first and its second space
    (up to the end when there is no second space). *)
Definition between_spaces (h : string) : option string :=
  option_map until_space (after_space h).

(** ** The store *)

Definition row := object.

(** The three statements the handlers send, as syntax: [$k] is the
    placeholder [k]; every SELECT is [SELECT *], every INSERT and DELETE
    ends in [RETURNING *]; a WHERE clause is a conjunction of
    [column = $k]. *)
Inductive sql : Type :=
| Select (table : string) (where_ : list (string * nat))
| Insert (table : string) (columns : list string) (values : list nat)
| Delete (table : string) (where_ : list (string * nat)).

Record table : Type := mkTable { t_rows : list row; t_serial : Z }.

Record DB : Type := mkDB { users : table; favorites : table }.

Definition get_table (d : DB) (name : string) : option table :=
  if name =? "users" then Some (users d)
  else if name =? "favorites" then Some (favorites d)
  else None.

Definition set_table (d : DB) (name : string) (t : table) : DB :=
  if name =? "users" then mkDB t (favorites d)
  else if name =? "favorites" then mkDB (users d) t
  else d.

(** Modelled from the spec: the schema is not part of the repository's
    sources; of its constraints the spec names one, the uniqueness of a
    user's email (sections 3 and 4.4). *)
Definition unique_columns (name : string) : list string :=
  if name =? "users" then ["email"] else [].

(** The types of the columns. *)
Inductive coltype : Type := TInt | TText.

(** Modelled from the spec: the schema is not part of the repository's
    sources.  The spec gives the name, the email and the password hash as
    text and the identifiers as assigned by the store (section 3); the
    identifier columns are taken as integers. *)
Definition column_type (column : string) : coltype :=
  if (column =? "id") || (column =? "user_id") || (column =? "poke_id")
  then TInt else TText.

(** [n.toString()] for an integer. *)
Definition decimal (n : Z) : string := NilZero.string_of_int (Z.to_int n).

(** What node-postgres sends for a parameter: nothing, that is NULL, for
    [null] and [undefined]; otherwise text: [toString()] of a number or a
    boolean, a string as it is, the text of an object. *)
Definition pg_text (v : jsval) : option string :=
  match v with
  | JUndefined | JNull => None
  | JBool b => Some (if b then "true" else "false")
  | JNum n => Some (decimal n)
  | JStr s => Some s
  | JObject text => Some text
  end.

Definition is_space (a : ascii) : bool :=
  let n := nat_of_ascii a in
  (n =? 32)%nat || ((9 <=? n)%nat && (n <=? 13)%nat).

Definition is_digit (a : ascii) : bool :=
  let n := nat_of_ascii a in
  (48 <=? n)%nat && (n <=? 57)%nat.

Fixpoint ltrim (s : string) : string :=
  match s with
  | EmptyString => ""
  | String a r => if is_space a then ltrim r else s
  end.

Fixpoint rtrim (s : string) : string :=
  match s with
  | EmptyString => ""
  | String a r =>
      match rtrim r with
      | EmptyString => if is_space a then "" else String a ""
      | r' => String a r'
      end
  end.

Definition strip_plus (t : string) : option string :=
  match t with
  | EmptyString => Some t
  | String a r =>
      if Ascii.eqb a "+" then
        match r with
        | EmptyString => None
        | String b _ => if is_digit b then Some r else None
        end
      else Some t
  end.

(** No blank and no plus sign in [s]. *)
Fixpoint no_blank (s : string) : bool :=
  match s with
  | EmptyString => true
  | String a r => negb (is_space a) && negb (Ascii.eqb a "+") && no_blank r
  end.

Definition in_int4 (n : Z) : bool :=
  ((-2147483648 <=? n) && (n <=? 2147483647))%Z.

(** How PostgreSQL reads text as an [integer]: blanks around it, a sign,
    decimal digits, and the value within 32 bits; anything else is an
    error.  (The decimal notation is the one every version reads; the
    hexadecimal, octal and binary notations of version 16 are left
    out.) *)
Definition int4in (s : string) : option Z :=
  match strip_plus (rtrim (ltrim s)) with
  | None => None
  | Some b =>
      match NilZero.int_of_string b with
      | Some d => if in_int4 (Z.of_int d) then Some (Z.of_int d) else None
      | None => None
      end
  end.

(** The parameter as PostgreSQL binds it to a column of type [ty]: NULL,
    the text itself, or the integer the text spells; [None] when the text
    spells no integer.  A cell of a text column reaches JavaScript as a
    string, a cell of an integer column as a number. *)
Definition coerce (ty : coltype) (v : jsval) : option jsval :=
  match pg_text v with
  | None => Some JNull
  | Some t =>
      match ty with
      | TText => Some (JStr t)
      | TInt => option_map JNum (int4in t)
      end
  end.

(** The value as a text column takes it. *)
Definition as_text (v : jsval) : jsval :=
  match pg_text v with
  | Some t => JStr t
  | None => JNull
  end.

(** [cell = v] in SQL, for a value [v] bound to the type of the column:
    never true against NULL. *)
Definition sql_eq (cell v : jsval) : bool :=
  match v with
  | JUndefined | JNull => false
  | _ => jsval_eqb cell v
  end.

(** Does the cell of column [column] equal the parameter [param], once
    the parameter is bound to the type of the column? *)
Definition col_eq (column : string) (cell param : jsval) : bool :=
  match coerce (column_type column) param with
  | Some v => sql_eq cell v
  | None => false
  end.

(** The parameter that stands for the placeholder [$k]. *)
Definition placeholder (params : list jsval) (k : nat) : option jsval :=
  match k with
  | O => None
  | S k' => nth_error params k'
  end.

Definition pg_error (msg : string) : error := mkError "error" msg.

(** The placeholders bound to the columns they are compared with or
    inserted into. *)
Fixpoint bind_all (params : list jsval) (targets : list (string * nat))
  : completion (list (string * jsval)) :=
  match targets with
  | [] => Normal []
  | (column, k) :: rest =>
      match placeholder params k with
      | None => Throw (pg_error "there is no parameter")
      | Some v =>
          match coerce (column_type column) v with
          | None => Throw (pg_error "invalid input syntax for type integer")
          | Some v' =>
              match bind_all params rest with
              | Normal vs => Normal ((column, v') :: vs)
              | Throw e => Throw e
              end
          end
      end
  end.

Definition matches (conds : list (string * jsval)) (r : row) : bool :=
  forallb (fun cv => sql_eq (prop r (fst cv)) (snd cv)) conds.

(** The relational store is PostgreSQL, an external collaborator; this is
    what it does with the three statement forms.  The parameters arrive
    as text and are bound to the types of their columns; a text that
    spells no integer, for an integer column, fails the statement.  A new
    row takes its [id] from the sequence of its table.  An INSERT whose
    column list and VALUES list differ in length is rejected before
    anything is bound or written; a row that repeats a unique column is
    rejected after the sequence has advanced. *)
Definition exec (q : sql) (params : list jsval) (d : DB)
  : completion (list row) * DB :=
  match q with
  | Select name conds =>
      match get_table d name with
      | None => (Throw (pg_error "relation does not exist"), d)
      | Some t =>
          match bind_all params conds with
          | Throw e => (Throw e, d)
          | Normal cs => (Normal (filter (matches cs) (t_rows t)), d)
          end
      end
  | Insert name cols vals =>
      match get_table d name with
      | None => (Throw (pg_error "relation does not exist"), d)
      | Some t =>
          if (length vals <? length cols)%nat then
            (Throw (pg_error "INSERT has more target columns than expressions"), d)
          else if (length cols <? length vals)%nat then
            (Throw (pg_error "INSERT has more expressions than target columns"), d)
          else
            match bind_all params (combine cols vals) with
            | Throw e => (Throw e, d)
            | Normal vs =>
                if negb (in_int4 (t_serial t)) then
                  (Throw (pg_error "nextval: reached maximum value of sequence"), d)
                else
                  let r := ("id", JNum (t_serial t)) :: vs in
                  let clash c :=
                    existsb (fun r' => sql_eq (prop r' c) (prop r c)) (t_rows t) in
                  if existsb clash (unique_columns name) then
                    (Throw (pg_error "duplicate key value violates unique constraint"),
                     set_table d name (mkTable (t_rows t) (t_serial t + 1)))
                  else
                    (Normal [r],
                     set_table d name (mkTable (t_rows t ++ [r]) (t_serial t + 1)))
            end
      end
  | Delete name conds =>
      match get_table d name with
      | None => (Throw (pg_error "relation does not exist"), d)
      | Some t =>
          match bind_all params conds with
          | Throw e => (Throw e, d)
          | Normal cs =>
              (Normal (filter (matches cs) (t_rows t)),
               set_table d name
                 (mkTable (filter (fun r => negb (matches cs r)) (t_rows t))
                          (t_serial t)))
          end
      end
  end.

(** ** The collaborators and the world *)

(** The third argument of [jwt.sign]. *)
Record sign_options : Type := mkSignOptions { expiresIn : option Z }.

(** bcryptjs: [hash(value, rounds)] with the salt it draws, and
    [compare(value, digest)]. *)
Class Bcrypt : Type := {
  bcrypt_hash : jsval -> Z -> string -> completion string;
  bcrypt_compare : jsval -> jsval -> completion bool
}.

(** jsonwebtoken: [sign(payload, secret, options)] and
    [verify(token, secret)], both at the time of the call, and
    [decode(token)], which reads the payload of a token without checking
    it (the handlers do not call it; the laws below speak of it). *)
Class Jwt : Type := {
  jwt_sign : object -> option string -> option sign_options -> Z -> completion string;
  jwt_verify : string -> option string -> Z -> completion object;
  jwt_decode : string -> option object
}.

(** A call that left the process. *)
Inductive call : Type :=
| CQuery (q : sql) (params : list jsval)
| CHash (value : jsval) (rounds : Z)
| CCompare (value digest : jsval)
| CSign (payload : object) (options : option sign_options)
| CVerify (token : string).

Record World : Type := mkWorld {
  db : DB;
  JWT_SECRET : option string;   (* process.env.JWT_SECRET *)
  clock : Z;                    (* the time jsonwebtoken reads *)
  entropy : string;             (* the salt bcryptjs draws next *)
  faults : list bool;           (* per coming query: does the driver reject it? *)
  calls : list call;            (* most recent first *)
  console : list string         (* most recent first *)
}.

Definition set_db (d : DB) (w : World) : World :=
  mkWorld d (JWT_SECRET w) (clock w) (entropy w) (faults w) (calls w) (console w).
Definition set_faults (fs : list bool) (w : World) : World :=
  mkWorld (db w) (JWT_SECRET w) (clock w) (entropy w) fs (calls w) (console w).
Definition log_call (c : call) (w : World) : World :=
  mkWorld (db w) (JWT_SECRET w) (clock w) (entropy w) (faults w) (c :: calls w) (console w).
Definition log_console (s : string) (w : World) : World :=
  mkWorld (db w) (JWT_SECRET w) (clock w) (entropy w) (faults w) (calls w) (s :: console w).

(** A computation: it reads and updates the world and completes normally
    or by throwing; what it did to the world before throwing stays done. *)
Definition M (A : Type) : Type := World -> completion A * World.

Definition ret {A} (a : A) : M A := fun w => (Normal a, w).

Definition throw {A} (e : error) : M A := fun w => (Throw e, w).

Definition bind {A B} (m : M A) (k : A -> M B) : M B :=
  fun w =>
    match m w with
    | (Normal a, w') => k a w'
    | (Throw e, w') => (Throw e, w')
    end.

Definition try_catch {A} (m : M A) (handler : error -> M A) : M A :=
  fun w =>
    match m w with
    | (Normal a, w') => (Normal a, w')
    | (Throw e, w') => handler e w'
    end.

Notation "x <- m ;; k" := (bind m (fun x => k))
  (at level 61, m at next level, right associativity).
Notation "m ;;; k" := (bind m (fun _ => k))
  (at level 61, right associativity).
Notation "'try' m 'catch' h" := (try_catch m h) (at level 62, m at level 61).

Definition console_error (label : string) : M unit :=
  fun w => (Normal tt, log_console label w).
Definition console_log (label : string) : M unit :=
  fun w => (Normal tt, log_console label w).

(** [await pool.query(text, params)]: the driver may reject the query on
    its own (connection lost, time-out); otherwise the store executes it. *)
Definition pool_query (q : sql) (params : list jsval) : M (list row) :=
  fun w =>
    let w1 := log_call (CQuery q params) w in
    match faults w1 with
    | true :: fs => (Throw (pg_error "connection terminated"), set_faults fs w1)
    | fs =>
        let '(res, d) := exec q params (db w1) in
        (res, set_db d (set_faults (tl fs) w1))
    end.

(** [o.k] for a value that may be [undefined]. *)
Definition member (o : option object) (k : string) : M jsval :=
  match o with
  | Some o => ret (prop o k)
  | None => throw (mkError "TypeError" "Cannot read properties of undefined")
  end.

(** The identifiers bound at module level of [index.js] and by Node's
    module wrapper. *)
Definition module_bindings : list string :=
  ["express"; "Pool"; "bcrypt"; "jwt"; "cors"; "app"; "port"; "pool";
   "authMiddleware"; "require"; "module"; "exports"; "__filename";
   "__dirname"; "process"; "console"].

(** Reading the identifier [x] where [locals] are the parameters and
    constants of the enclosing function. *)
Definition read_var (locals : object) (x : string) : M jsval :=
  if has_key locals x then ret (prop locals x)
  else if existsb (String.eqb x) module_bindings then ret (JObject x)
  else throw (mkError "ReferenceError" (x ++ " is not defined")).

(** ** Requests and responses *)

(** What the handlers read of [req].  The body is the object that
    [express.json()] leaves in [req.body]; a field it lacks reads as
    [undefined]. *)
Record request : Type := mkRequest {
  authorization : option string;   (* req.headers['authorization'] *)
  body : object;                   (* req.body *)
  params_id : jsval;               (* req.params.id *)
  userId : jsval                   (* req.userId *)
}.

Definition set_userId (req : request) (v : jsval) : request :=
  mkRequest (authorization req) (body req) (params_id req) v.

(** What a field of a response body holds. *)
Inductive bodyval : Type :=
| BVal (v : jsval)
| BRow (r : option row)
| BRows (rs : list row)
| BError (e : error).

Record response : Type := mkResponse {
  status : Z;
  json : list (string * bodyval)
}.

Definition message (s : string) : string * bodyval := ("message", BVal (JStr s)).

(** What a middleware did: answered, or called [next()]. *)
Inductive gate : Type :=
| Responded (r : response)
| Next (req : request).

(** ** index.js *)

Section Server.
Context {B : Bcrypt} {J : Jwt}.

Definition bcrypt_hash_call (value : jsval) (rounds : Z) : M string :=
  fun w => (bcrypt_hash value rounds (entropy w), log_call (CHash value rounds) w).

Definition bcrypt_compare_call (value digest : jsval) : M bool :=
  fun w => (bcrypt_compare value digest, log_call (CCompare value digest) w).

(** [jwt.sign(payload, process.env.JWT_SECRET)]: no third argument. *)
Definition jwt_sign_call (payload : object) : M string :=
  fun w => (jwt_sign payload (JWT_SECRET w) None (clock w),
            log_call (CSign payload None) w).

(** [jwt.verify(token, process.env.JWT_SECRET)]. *)
Definition jwt_verify_call (token : string) : M object :=
  fun w => (jwt_verify token (JWT_SECRET w) (clock w), log_call (CVerify token) w).

(** [const authMiddleware = (req, res, next) => ...] *)
Definition authMiddleware (req : request) : M gate :=
  let token := authorization req in
  if falsy token then
    console_error "Token não fornecido" ;;;
    ret (Responded (mkResponse 403 [message "Token de autenticação não fornecido."]))
  else
    let token := match token with Some t => t | None => "" end in
    if negb (startsWith token "Bearer ") then
      console_error "Token malformado. Esperado 'Bearer <token>'" ;;;
      ret (Responded (mkResponse 400
             [message "Token malformado. Formato esperado: Bearer <token>"]))
    else
      let tokenStr := nth_error (split space token) 1 in
      if falsy tokenStr then
        console_error "Token vazio após a remoção do prefixo 'Bearer'" ;;;
        ret (Responded (mkResponse 400 [message "Token malformado."]))
      else
        let tokenStr := match tokenStr with Some t => t | None => "" end in
        try (decoded <- jwt_verify_call tokenStr ;;
             console_log "Token decodificado:" ;;;
             ret (Next (set_userId req (prop decoded "userId"))))
        catch (fun error =>
             console_error "Erro ao verificar o token:" ;;;
             if err_name error =? "TokenExpiredError" then
               ret (Responded (mkResponse 401 [message "Token expirado."]))
             else
               ret (Responded (mkResponse 401 [("message", BError error)]))).

(** [INSERT INTO users (name, email, password) VALUES ($1, $2, $3) RETURNING *] *)
Definition insert_user : sql :=
  Insert "users" ["name"; "email"; "password"] [1; 2; 3]%nat.

(** [app.post('/api/auth/register', async (req, res) => ...)] *)
Definition register (req : request) : M response :=
  let name := prop (body req) "name" in
  let email := prop (body req) "email" in
  let password := prop (body req) "password" in
  if negb (truthy name) || negb (truthy email) || negb (truthy password) then
    ret (mkResponse 400 [message "Todos os campos são obrigatórios."])
  else
    try (hashPassword <- bcrypt_hash_call password 10 ;;
         result <- pool_query insert_user [name; email; JStr hashPassword] ;;
         let user := nth_error result 0 in
         user_id <- member user "id" ;;
         token <- jwt_sign_call [("userId", user_id)] ;;
         ret (mkResponse 201
                [message "Usuário registrado com sucesso";
                 ("token", BVal (JStr token));
                 ("userId", BVal user_id)]))
    catch (fun error =>
         console_error "Erro ao registrar usuário:" ;;;
         ret (mkResponse 500 [message "Erro ao registrar usuário."])).

(** [SELECT * FROM users WHERE email = $1] *)
Definition select_user_by_email : sql := Select "users" [("email", 1%nat)].

(** [app.post('/api/auth/login', async (req, res) => ...)] *)
Definition login (req : request) : M response :=
  let email := prop (body req) "email" in
  let password := prop (body req) "password" in
  if negb (truthy email) || negb (truthy password) then
    ret (mkResponse 400 [message "Todos os campos são obrigatórios."])
  else
    try (result <- pool_query select_user_by_email [email] ;;
         match nth_error result 0 with
         | None => ret (mkResponse 404 [message "Usuário não encontrado."])
         | Some user =>
             isMatch <- bcrypt_compare_call password (prop user "password") ;;
             if negb isMatch then
               ret (mkResponse 400 [message "Senha incorreta."])
             else
               token <- jwt_sign_call [("userId", prop user "id")] ;;
               ret (mkResponse 200
                      [message "Login bem-sucedido";
                       ("token", BVal (JStr token));
                       ("userId", BVal (prop user "id"))])
         end)
    catch (fun error =>
         console_error "Erro ao fazer login:" ;;;
         ret (mkResponse 500 [message "Erro ao fazer login."])).

(** [SELECT * FROM favorites WHERE user_id = $1 AND name = $2] *)
Definition select_favorite : sql :=
  Select "favorites" [("user_id", 1%nat); ("name", 2%nat)].

(** [INSERT INTO favorites (user_id, name, poke_id) VALUES ($1, $2) RETURNING *] *)
Definition insert_favorite : sql :=
  Insert "favorites" ["user_id"; "name"; "poke_id"] [1; 2]%nat.

(** The handler of [app.post('/api/favorites', authMiddleware, ...)]. *)
Definition addFavorite (req : request) : M response :=
  let name := prop (body req) "name" in
  let poke_id := prop (body req) "poke_id" in
  let userId := userId req in
  if negb (truthy name) || negb (truthy poke_id) then
    ret (mkResponse 400 [message "O nome do pokemon favorito e ID é obrigatório."])
  else
    try (result <- pool_query select_favorite [userId; name] ;;
         if (0 <? length result)%nat then
           ret (mkResponse 400 [message "Este item já foi favoritado."])
         else
           insertResult <- pool_query insert_favorite [userId; name] ;;
           ret (mkResponse 201
                  [message "Favorito adicionado com sucesso.";
                   ("userId", BVal userId);
                   ("favorite", BRow (nth_error insertResult 0))]))
    catch (fun error =>
         console_error "Erro ao adicionar favorito:" ;;;
         ret (mkResponse 500 [message "Erro ao adicionar favorito."])).

(** [SELECT * FROM favorites WHERE user_id = $1] *)
Definition select_favorites : sql := Select "favorites" [("user_id", 1%nat)].

(** The handler of [app.get('/api/favorites', authMiddleware, ...)]. *)
Definition listFavorites (req : request) : M response :=
  let userId := userId req in
  try (result <- pool_query select_favorites [userId] ;;
       ret (mkResponse 200 [("userId", BVal userId); ("favorites", BRows result)]))
  catch (fun error =>
       console_error "Erro ao listar favoritos:" ;;;
       ret (mkResponse 500 [message "Erro ao listar favoritos."])).

(** [DELETE FROM favorites WHERE poke_id = $1 AND user_id = $2 RETURNING *] *)
Definition delete_favorite : sql :=
  Delete "favorites" [("poke_id", 1%nat); ("user_id", 2%nat)].

(** The handler of [app.delete('/api/favorites/:id', authMiddleware, ...)].
    It binds [poke_id] and [userId]; its query parameters are
    [[id, userId]], read here by name. *)
Definition removeFavorite (req : request) : M response :=
  let poke_id := params_id req in
  let userId := userId req in
  let locals := [("req", JObject "req"); ("res", JObject "res");
                 ("poke_id", poke_id); ("userId", userId)] in
  try (p1 <- read_var locals "id" ;;
       p2 <- read_var locals "userId" ;;
       result <- pool_query delete_favorite [p1; p2] ;;
       if (length result =? 0)%nat then
         ret (mkResponse 404 [message "Favorito não encontrado."])
       else
         ret (mkResponse 200
                [message "Favorito removido com sucesso.";
                 ("userId", BVal userId);
                 ("favorite", BRow (nth_error result 0))]))
  catch (fun error =>
       console_error "Erro ao remover favorito:" ;;;
       ret (mkResponse 500 [message "Erro ao remover favorito."])).

(** [app.METHOD(path, authMiddleware, handler)]. *)
Definition protected (handler : request -> M response) (req : request) : M response :=
  g <- authMiddleware req ;;
  match g with
  | Responded r => ret r
  | Next req' => handler req'
  end.

Definition post_favorites := protected addFavorite.
Definition get_favorites := protected listFavorites.
Definition delete_favorites := protected removeFavorite.

End Server.

(** ** What the handlers rely on from bcryptjs and jsonwebtoken *)

(** A digest produced from a value compares equal to that value. *)
Class BcryptLaws (B : Bcrypt) : Prop := {
  hash_compare : forall (v : jsval) (rounds : Z) (salt h : string),
    bcrypt_hash v rounds salt = Normal h ->
    bcrypt_compare v (JStr h) = Normal true
}.

(** A payload that carries neither [exp] nor [nbf]. *)
Definition timeless (payload : object) : bool :=
  negb (has_key payload "exp") && negb (has_key payload "nbf").

Class JwtLaws (J : Jwt) : Prop := {
  (** A token signed without options from a timeless payload verifies
      under the same secret at any time, and gives the claim back. *)
  sign_verify : forall (payload : object) (secret : option string) (now now' : Z)
                       (tok : string),
    jwt_sign payload secret None now = Normal tok ->
    timeless payload = true ->
    exists decoded,
      jwt_verify tok secret now' = Normal decoded /\
      prop decoded "userId" = prop payload "userId";
  (** The payload of a token signed without options carries the claim it
      was signed for, and no [exp] unless the payload given had one. *)
  sign_decode : forall payload secret now tok,
    jwt_sign payload secret None now = Normal tok ->
    exists decoded,
      jwt_decode tok = Some decoded /\
      prop decoded "userId" = prop payload "userId" /\
      (has_key payload "exp" = false -> has_key decoded "exp" = false);
  (** What verification returns is the payload of the token. *)
  verify_decode : forall tok secret now decoded,
    jwt_verify tok secret now = Normal decoded ->
    jwt_decode tok = Some decoded;
  (** Only a token whose payload has an [exp] is found expired. *)
  verify_expired : forall tok secret now e,
    jwt_verify tok secret now = Throw e ->
    err_name e = "TokenExpiredError" ->
    exists decoded, jwt_decode tok = Some decoded /\ has_key decoded "exp" = true;
  (** A token is in the compact serialization: not empty, no space. *)
  sign_compact : forall payload secret opts now tok,
    jwt_sign payload secret opts now = Normal tok ->
    tok <> "" /\ no_space tok = true;
  (** Whether signing succeeds does not depend on the time. *)
  sign_any_time : forall payload secret opts now now' tok,
    jwt_sign payload secret opts now = Normal tok ->
    exists tok', jwt_sign payload secret opts now' = Normal tok'
}.

(** ** A small implementation of the two libraries

    Enough to run the handlers on concrete requests: the digest of a
    string is the string behind a dollar sign, and a token spells a
    non-negative user identifier in unary. *)

Definition dollar : ascii := "$"%char.

Fixpoint after_dollar (s : string) : option string :=
  match s with
  | EmptyString => None
  | String a s' => if Ascii.eqb a dollar then Some s' else after_dollar s'
  end.

Definition illegal_arguments : error := mkError "Error" "Illegal arguments".

#[local] Instance toy_bcrypt : Bcrypt := {
  bcrypt_hash v rounds salt :=
    match v with
    | JStr p => Normal (String dollar p)
    | _ => Throw illegal_arguments
    end;
  bcrypt_compare v digest :=
    match v, digest with
    | JStr p, JStr h =>
        Normal (match after_dollar h with
                | Some p' => p =? p'
                | None => false
                end)
    | _, _ => Throw illegal_arguments
    end
}.

Fixpoint unary (n : nat) : string :=
  match n with
  | O => ""
  | S n' => String "x" (unary n')
  end.

Fixpoint read_unary (s : string) : option nat :=
  match s with
  | EmptyString => Some O
  | String a s' =>
      if Ascii.eqb a "x"%char then option_map S (read_unary s') else None
  end.

Definition jwt_malformed : error := mkError "JsonWebTokenError" "jwt malformed".
Definition jwt_expired : error := mkError "TokenExpiredError" "jwt expired".
Definition no_secret : error := mkError "Error" "secretOrPrivateKey must have a value".

#[local] Instance toy_jwt : Jwt := {
  jwt_sign payload secret opts now :=
    match secret, prop payload "userId" with
    | Some s, JNum n =>
        if (s =? "") || (n <? 0)%Z then Throw no_secret
        else Normal (String "j" (unary (Z.to_nat n)))
    | _, _ => Throw no_secret
    end;
  jwt_verify tok secret now :=
    match tok with
    | String "j" rest =>
        match read_unary rest with
        | Some n => Normal [("userId", JNum (Z.of_nat n))]
        | None => Throw jwt_malformed
        end
    | String "e" _ => Throw jwt_expired
    | _ => Throw jwt_malformed
    end;
  jwt_decode tok :=
    match tok with
    | String "j" rest =>
        option_map (fun n => [("userId", JNum (Z.of_nat n))]) (read_unary rest)
    | String "e" _ => Some [("exp", JNum 0)]
    | _ => None
    end
}.

(** ** The responses of the gate, by name *)

Definition token_missing : response :=
  mkResponse 403 [message "Token de autenticação não fornecido."].
Definition scheme_malformed : response :=
  mkResponse 400 [message "Token malformado. Formato esperado: Bearer <token>"].
Definition token_empty : response :=
  mkResponse 400 [message "Token malformado."].
Definition token_expired : response :=
  mkResponse 401 [message "Token expirado."].
Definition token_invalid (e : error) : response :=
  mkResponse 401 [("message", BError e)].

(** ** The responses of the handlers, by name *)

Definition fields_required : response :=
  mkResponse 400 [message "Todos os campos são obrigatórios."].
Definition registered (token : string) (id : jsval) : response :=
  mkResponse 201 [message "Usuário registrado com sucesso";
                  ("token", BVal (JStr token)); ("userId", BVal id)].
Definition register_failed : response :=
  mkResponse 500 [message "Erro ao registrar usuário."].
Definition user_not_found : response :=
  mkResponse 404 [message "Usuário não encontrado."].
Definition wrong_password : response :=
  mkResponse 400 [message "Senha incorreta."].
Definition logged_in (token : string) (id : jsval) : response :=
  mkResponse 200 [message "Login bem-sucedido";
                  ("token", BVal (JStr token)); ("userId", BVal id)].
Definition login_failed : response :=
  mkResponse 500 [message "Erro ao fazer login."].
Definition add_failed : response :=
  mkResponse 500 [message "Erro ao adicionar favorito."].
Definition remove_failed : response :=
  mkResponse 500 [message "Erro ao remover favorito."].

(** ** The store, in the words of the specification *)

(** Does the user [uid] already have a favorite called [name]? *)
Definition favorited (d : DB) (uid name : jsval) : bool :=
  existsb (fun r => col_eq "user_id" (prop r "user_id") uid
                    && col_eq "name" (prop r "name") name)
          (t_rows (favorites d)).

(** The first user whose email is [email]. *)
Definition user_by_email (d : DB) (email : jsval) : option row :=
  find (fun r => col_eq "email" (prop r "email") email) (t_rows (users d)).

(** The identifiers of the users are integers of the column's range, as
    the store assigns them. *)
Definition integer_ids (d : DB) : Prop :=
  forall u, In u (t_rows (users d)) ->
  exists n, prop u "id" = JNum n /\ in_int4 n = true.

(** Does a field of the response body hold an [Error] object? *)
Definition exposes_error (r : response) : bool :=
  existsb (fun kv => match snd kv with BError _ => true | _ => false end) (json r).

(** The token a response carries, if any. *)
Definition token_of (r : response) : option string :=
  match find (fun kv => fst kv =? "token") (json r) with
  | Some (_, BVal (JStr t)) => Some t
  | _ => None
  end.

(** The handler answers, and its answer holds no error object. *)
Definition answers_plainly (handler : request -> M response) (req : request)
    (w : World) : Prop :=
  exists r, fst (handler req w) = Normal r /\ exposes_error r = false.

(** ** A world to run examples in *)

Definition world0 : World :=
  mkWorld (mkDB (mkTable [] 1) (mkTable [] 1)) (Some "secret") 0 "salt" [] [] [].

Definition request0 (header : option string) (fields : object) : request :=
  mkRequest header fields JUndefined JUndefined.

(** The store after one registration: user 1, whose password is "p". *)
Definition world1 : World :=
  mkWorld
    (mkDB (mkTable [[("id", JNum 1); ("name", JStr "A");
                     ("email", JStr "a@x.com"); ("password", JStr "$p")]] 2)
          (mkTable [] 1))
    (Some "secret") 0 "salt" [] [] [].

Definition credentials (email password : string) : object :=
  [("email", JStr email); ("password", JStr password)].

Definition new_user : object :=
  [("name", JStr "A"); ("email", JStr "a@x.com"); ("password", JStr "p")].

(** A world whose next query the driver rejects, and one without secret. *)
Definition world_down : World :=
  mkWorld (db world0) (Some "secret") 0 "salt" [true] [] [].
Definition world_no_secret : World :=
  mkWorld (db world0) None 0 "salt" [] [] [].

(** ** The routes

    [app.post('/api/auth/register', ...)], [app.post('/api/auth/login', ...)],
    [app.post('/api/favorites', authMiddleware, ...)],
    [app.get('/api/favorites', authMiddleware, ...)] and
    [app.delete('/api/favorites/:id', authMiddleware, ...)]. *)

Inductive route : Type :=
| PostRegister
| PostLogin
| PostFavorites
| GetFavorites
| DeleteFavorites.

Section Routes.
Context {B : Bcrypt} {J : Jwt}.

Definition serve (rt : route) : request -> M response :=
  match rt with
  | PostRegister => register
  | PostLogin => login
  | PostFavorites => post_favorites
  | GetFavorites => get_favorites
  | DeleteFavorites => delete_favorites
  end.

(** What the surroundings decide between two requests: the time, the salt
    bcryptjs will draw, and which of the coming queries the driver
    rejects.  The tables, the secret and the traces stay. *)
Record env : Type := mkEnv {
  e_clock : Z;
  e_entropy : string;
  e_faults : list bool
}.

Definition arrive (e : env) (w : World) : World :=
  mkWorld (db w) (JWT_SECRET w) (e_clock e) (e_entropy e) (e_faults e)
          (calls w) (console w).

(** The requests of a history, served one after the other. *)
Fixpoint serve_all (history : list (env * route * request)) (w : World) : World :=
  match history with
  | [] => w
  | (e, rt, req) :: rest => serve_all rest (snd (serve rt req (arrive e w)))
  end.

End Routes.

(** The statuses a route answers with. *)
Definition statuses (rt : route) : list Z :=
  match rt with
  | PostRegister => [201; 400; 500]
  | PostLogin => [200; 400; 404; 500]
  | PostFavorites => [400; 401; 403; 500]
  | GetFavorites => [200; 400; 401; 403; 500]
  | DeleteFavorites => [400; 401; 403; 500]
  end%Z.

(** The handler answers, with one of the statuses allowed. *)
Definition answers_within (allowed : list Z) (handler : request -> M response)
    (req : request) (w : World) : Prop :=
  exists r, fst (handler req w) = Normal r /\ In (status r) allowed.

(** What the gate decided, without the request it passes on: its answer,
    or the identifier it attached. *)
Definition verdict (g : completion gate) : option (response + jsval) :=
  match g with
  | Normal (Responded r) => Some (inl r)
  | Normal (Next req) => Some (inr (userId req))
  | Throw _ => None
  end.

(** The [userId] a response carries, if any. *)
Definition user_of (r : response) : option jsval :=
  match find (fun kv => fst kv =? "userId") (json r) with
  | Some (_, BVal v) => Some v
  | _ => None
  end.

(** The answers to a request for a user's favorites. *)
Definition favorites_listed (uid : jsval) (rows : list row) : response :=
  mkResponse 200 [("userId", BVal uid); ("favorites", BRows rows)].
Definition list_failed : response :=
  mkResponse 500 [message "Erro ao listar favoritos."].
Definition favorite_fields_required : response :=
  mkResponse 400 [message "O nome do pokemon favorito e ID é obrigatório."].
Definition already_favorited : response :=
  mkResponse 400 [message "Este item já foi favoritado."].

(** A world with one favorite of user 2, and a header for user 2. *)
Definition world2 : World :=
  mkWorld
    (mkDB (mkTable [] 1)
          (mkTable [[("id", JNum 1); ("user_id", JNum 2);
                     ("name", JStr "pikachu"); ("poke_id", JNum 25)];
                    [("id", JNum 2); ("user_id", JNum 3);
                     ("name", JStr "mew"); ("poke_id", JNum 151)]] 3))
    (Some "secret") 0 "salt" [] [] [].

(** A second account, and a short history: a registration, then an
    attempt of the new user to add a favorite. *)
Definition second_user : object :=
  [("name", JStr "B"); ("email", JStr "b@x.com"); ("password", JStr "q")].

Definition pikachu : object := [("name", JStr "pikachu"); ("poke_id", JNum 25)].

(** A store in which the email of user 1 and the name of their one
    favorite are the text "5". *)
Definition world5 : World :=
  mkWorld
    (mkDB (mkTable [[("id", JNum 1); ("name", JStr "A");
                     ("email", JStr "5"); ("password", JStr "$p")]] 2)
          (mkTable [[("id", JNum 1); ("user_id", JNum 1);
                     ("name", JStr "5"); ("poke_id", JNum 25)]] 2))
    (Some "secret") 0 "salt" [] [] [].

Definition quiet : env := mkEnv 0 "salt" [].

Definition history0 : list (env * route * request) :=
  [(quiet, PostRegister, request0 None new_user);
   (quiet, PostFavorites, request0 (Some "Bearer jx") pikachu)].

(** * Properties *)

(** Running the monad by hand. *)
Ltac run := unfold bind, try_catch, ret, throw, console_error, console_log,
              jwt_verify_call; simpl.

(** ** Strings *)

Lemma split_first (s : string) :
  nth_error (split space s) 0 = Some (until_space s).
Proof.
  induction s as [|a s IH]; simpl; [reflexivity|].
  destruct (Ascii.eqb a space); [reflexivity|].
  destruct (split space s) as [|x xs]; simpl in *; congruence.
Qed.

Lemma split_second (s : string) :
  nth_error (split space s) 1 = between_spaces s.
Proof.
  unfold between_spaces.
  induction s as [|a s IH]; simpl; [reflexivity|].
  destruct (Ascii.eqb a space).
  - simpl. apply split_first.
  - pose proof (split_first s) as H0.
    destruct (split space s) as [|x xs]; simpl in *; [discriminate|exact IH].
Qed.

Lemma prefix_app (p s : string) :
  String.prefix p s = true -> exists t, s = (p ++ t)%string.
Proof.
  revert s; induction p as [|a p IH]; intros s H.
  - exists s; reflexivity.
  - destruct s as [|b s]; simpl in H; [discriminate|].
    destruct (ascii_dec a b) as [->|]; [|discriminate].
    destruct (IH _ H) as [t ->]. exists t; reflexivity.
Qed.

Lemma app_prefix (p t : string) : String.prefix p (p ++ t) = true.
Proof.
  induction p as [|a p IH]; simpl; [destruct t; reflexivity|].
  destruct (ascii_dec a a); [exact IH|congruence].
Qed.

Lemma between_spaces_bearer (t : string) :
  between_spaces ("Bearer " ++ t) = Some (until_space t).
Proof. reflexivity. Qed.

Lemma until_space_no_space (s : string) :
  no_space s = true -> until_space s = s.
Proof.
  induction s as [|a s IH]; simpl; [reflexivity|].
  destruct (Ascii.eqb a space); simpl; [discriminate|].
  intros H; rewrite (IH H); reflexivity.
Qed.

Lemma until_space_app (a b : string) :
  no_space a = true -> until_space (a ++ String space b) = a.
Proof.
  induction a as [|c a IH]; simpl; [reflexivity|].
  destruct (Ascii.eqb c space); simpl; [discriminate|].
  intros H; rewrite (IH H); reflexivity.
Qed.

Lemma eqb_false_iff (s : string) : (s =? "") = false <-> s <> "".
Proof. apply String.eqb_neq. Qed.

(** ** The small implementation satisfies the laws *)

Lemma toy_bcrypt_laws : BcryptLaws toy_bcrypt.
Proof.
  constructor. intros v rounds salt h H.
  destruct v; simpl in H; try discriminate.
  injection H as <-. simpl. rewrite String.eqb_refl. reflexivity.
Qed.

Lemma read_unary_unary (n : nat) : read_unary (unary n) = Some n.
Proof. induction n as [|n IH]; simpl; [reflexivity|]. rewrite IH; reflexivity. Qed.

Lemma no_space_unary (n : nat) : no_space (unary n) = true.
Proof. induction n as [|n IH]; simpl; [reflexivity|exact IH]. Qed.

Lemma toy_sign_inv payload secret opts now tok :
  @jwt_sign toy_jwt payload secret opts now = Normal tok ->
  exists n, prop payload "userId" = JNum n /\ (0 <= n)%Z /\
            tok = String "j" (unary (Z.to_nat n)).
Proof.
  simpl. destruct secret as [s|]; [|discriminate].
  destruct (prop payload "userId") as [| |b|n|s'|o]; try discriminate.
  destruct (s =? ""); simpl; [discriminate|].
  destruct (n <? 0)%Z eqn:E; [discriminate|].
  intros H; injection H as <-. exists n. repeat split. lia.
Qed.

Lemma toy_verify_inv tok secret now :
  match @jwt_verify toy_jwt tok secret now with
  | Normal decoded => @jwt_decode toy_jwt tok = Some decoded
  | Throw e =>
      err_name e = "TokenExpiredError" ->
      @jwt_decode toy_jwt tok = Some [("exp", JNum 0)]
  end.
Proof.
  destruct tok as [|a rest]; simpl; [discriminate|].
  destruct a as [[|] [|] [|] [|] [|] [|] [|] [|]]; simpl; try discriminate;
    try reflexivity.
  destruct (read_unary rest); simpl; [reflexivity|discriminate].
Qed.

Lemma toy_jwt_laws : JwtLaws toy_jwt.
Proof.
  constructor.
  - intros payload secret now now' tok H _.
    destruct (toy_sign_inv _ _ _ _ _ H) as (n & Hn & Hpos & ->).
    exists [("userId", JNum n)]. split; [|simpl; congruence].
    simpl. rewrite read_unary_unary, Z2Nat.id by lia. reflexivity.
  - intros payload secret now tok H.
    destruct (toy_sign_inv _ _ _ _ _ H) as (n & Hn & Hpos & ->).
    exists [("userId", JNum n)]. split; [|split; [simpl; congruence|reflexivity]].
    simpl. rewrite read_unary_unary. simpl. rewrite Z2Nat.id by lia. reflexivity.
  - intros tok secret now decoded H.
    pose proof (toy_verify_inv tok secret now) as V. rewrite H in V. exact V.
  - intros tok secret now e H N.
    pose proof (toy_verify_inv tok secret now) as V. rewrite H in V.
    eexists. split; [exact (V N)|reflexivity].
  - intros payload secret opts now tok H.
    destruct (toy_sign_inv _ _ _ _ _ H) as (n & _ & _ & ->).
    split; [discriminate|]. simpl. apply no_space_unary.
  - intros payload secret opts now now' tok H. exists tok. exact H.
Qed.

(** ** The authentication gate *)

Section Gate.
Context {J : Jwt}.

Lemma gate_absent req w :
  falsy (authorization req) = true ->
  authMiddleware req w =
    (Normal (Responded token_missing), log_console "Token não fornecido" w).
Proof. intros H. unfold authMiddleware. rewrite H. reflexivity. Qed.

Lemma startsWith_not_empty h : startsWith h "Bearer " = true -> (h =? "") = false.
Proof. destruct h; [discriminate|reflexivity]. Qed.

Lemma gate_scheme req h w :
  authorization req = Some h -> h <> "" -> startsWith h "Bearer " = false ->
  authMiddleware req w =
    (Normal (Responded scheme_malformed),
     log_console "Token malformado. Esperado 'Bearer <token>'" w).
Proof.
  intros Hh Hne Hp. unfold authMiddleware. rewrite Hh.
  cbv beta iota zeta delta [falsy].
  apply eqb_false_iff in Hne. rewrite Hne, Hp. reflexivity.
Qed.

Lemma gate_empty req h w :
  authorization req = Some h -> startsWith h "Bearer " = true ->
  between_spaces h = Some "" ->
  authMiddleware req w =
    (Normal (Responded token_empty),
     log_console "Token vazio após a remoção do prefixo 'Bearer'" w).
Proof.
  intros Hh Hp Hb. unfold authMiddleware. rewrite Hh.
  cbv beta iota zeta delta [falsy].
  rewrite (startsWith_not_empty _ Hp), Hp, split_second, Hb. reflexivity.
Qed.

(** From the verification on, the gate is decided by [jwt.verify] on the
    segment between the first two spaces. *)
Lemma gate_verify req h t w :
  authorization req = Some h -> startsWith h "Bearer " = true ->
  between_spaces h = Some t -> t <> "" ->
  authMiddleware req w =
    match jwt_verify t (JWT_SECRET w) (clock w) with
    | Normal decoded =>
        (Normal (Next (set_userId req (prop decoded "userId"))),
         log_console "Token decodificado:" (log_call (CVerify t) w))
    | Throw e =>
        (Normal (Responded (if err_name e =? "TokenExpiredError"
                            then token_expired else token_invalid e)),
         log_console "Erro ao verificar o token:" (log_call (CVerify t) w))
    end.
Proof.
  intros Hh Hp Hb Hne. unfold authMiddleware. rewrite Hh.
  cbv beta iota zeta delta [falsy].
  rewrite (startsWith_not_empty _ Hp), Hp, split_second, Hb.
  apply eqb_false_iff in Hne. rewrite Hne. run.
  destruct (jwt_verify t (JWT_SECRET w) (clock w)) as [d|e]; [reflexivity|].
  destruct (err_name e =? "TokenExpiredError"); reflexivity.
Qed.

(** The gate itself never throws: it answers or calls [next()]. *)
Lemma gate_cases req w :
  (exists r w', authMiddleware req w = (Normal (Responded r), w') /\ db w' = db w) \/
  (exists h t decoded,
      authorization req = Some h /\ startsWith h "Bearer " = true /\
      between_spaces h = Some t /\ t <> "" /\
      jwt_verify t (JWT_SECRET w) (clock w) = Normal decoded /\
      authMiddleware req w =
        (Normal (Next (set_userId req (prop decoded "userId"))),
         log_console "Token decodificado:" (log_call (CVerify t) w))).
Proof.
  destruct (falsy (authorization req)) eqn:Hf.
  { left. rewrite (gate_absent _ _ Hf). eauto. }
  destruct (authorization req) as [h|] eqn:Hh; [|discriminate]. simpl in Hf.
  apply eqb_false_iff in Hf.
  destruct (startsWith h "Bearer ") eqn:Hp.
  2:{ left. rewrite (gate_scheme _ _ _ Hh Hf Hp). eauto. }
  destruct (prefix_app _ _ Hp) as [t0 Ht0].
  assert (Hb : between_spaces h = Some (until_space t0))
    by (rewrite Ht0; apply between_spaces_bearer).
  destruct (until_space t0 =? "") eqn:Ht.
  { apply String.eqb_eq in Ht. rewrite Ht in Hb. left.
    rewrite (gate_empty _ _ _ Hh Hp Hb). eauto. }
  apply eqb_false_iff in Ht.
  pose proof (gate_verify _ _ _ w Hh Hp Hb Ht) as Hv.
  destruct (jwt_verify (until_space t0) (JWT_SECRET w) (clock w)) as [d|e] eqn:Hj.
  - right. exists h, (until_space t0), d. auto 10.
  - left. rewrite Hv. eauto.
Qed.

(** The gate leaves the store and the environment alone; of the
    collaborators it calls at most [jwt.verify], once. *)
Lemma gate_frame req w :
  let w' := snd (authMiddleware req w) in
  db w' = db w /\ faults w' = faults w /\ JWT_SECRET w' = JWT_SECRET w /\
  clock w' = clock w /\ entropy w' = entropy w /\
  (calls w' = calls w \/ exists t, calls w' = CVerify t :: calls w).
Proof.
  cbv zeta.
  destruct (falsy (authorization req)) eqn:Hf.
  { rewrite (gate_absent _ _ Hf). simpl. auto 10. }
  destruct (authorization req) as [h|] eqn:Hh; [|discriminate]. simpl in Hf.
  apply eqb_false_iff in Hf.
  destruct (startsWith h "Bearer ") eqn:Hp.
  2:{ rewrite (gate_scheme _ _ _ Hh Hf Hp). simpl. auto 10. }
  destruct (prefix_app _ _ Hp) as [t0 Ht0].
  assert (Hb : between_spaces h = Some (until_space t0))
    by (rewrite Ht0; apply between_spaces_bearer).
  destruct (until_space t0 =? "") eqn:Ht.
  { apply String.eqb_eq in Ht. rewrite Ht in Hb.
    rewrite (gate_empty _ _ _ Hh Hp Hb). simpl. auto 10. }
  apply eqb_false_iff in Ht.
  rewrite (gate_verify _ _ _ w Hh Hp Hb Ht).
  destruct (jwt_verify (until_space t0) (JWT_SECRET w) (clock w)); simpl; eauto 10.
Qed.

(** If the trace shows the gate verifying [tok], the request carried
    [tok] between the first two spaces of a "Bearer " header. *)
Lemma gate_verified_inv req w tok :
  calls (snd (authMiddleware req w)) = CVerify tok :: calls w ->
  exists h, authorization req = Some h /\ startsWith h "Bearer " = true /\
            between_spaces h = Some tok /\ tok <> "".
Proof.
  assert (Hno : forall (c : call) l, l = c :: l -> False).
  { intros c l H. apply (f_equal (@length call)) in H. simpl in H. lia. }
  intros Hc.
  destruct (falsy (authorization req)) eqn:Hf.
  { rewrite (gate_absent _ _ Hf) in Hc. simpl in Hc. destruct (Hno _ _ Hc). }
  destruct (authorization req) as [h|] eqn:Hh; [|discriminate]. simpl in Hf.
  apply eqb_false_iff in Hf.
  destruct (startsWith h "Bearer ") eqn:Hp.
  2:{ rewrite (gate_scheme _ _ _ Hh Hf Hp) in Hc. simpl in Hc.
      destruct (Hno _ _ Hc). }
  destruct (prefix_app _ _ Hp) as [t0 Ht0].
  assert (Hb : between_spaces h = Some (until_space t0))
    by (rewrite Ht0; apply between_spaces_bearer).
  destruct (until_space t0 =? "") eqn:Ht.
  { apply String.eqb_eq in Ht. rewrite Ht in Hb.
    rewrite (gate_empty _ _ _ Hh Hp Hb) in Hc. simpl in Hc.
    destruct (Hno _ _ Hc). }
  apply eqb_false_iff in Ht.
  rewrite (gate_verify _ _ _ w Hh Hp Hb Ht) in Hc.
  assert (until_space t0 = tok) as <-.
  { destruct (jwt_verify (until_space t0) (JWT_SECRET w) (clock w));
      simpl in Hc; congruence. }
  exists h. auto.
Qed.

(** C1 (as amended): the gate decides in this order.  No authorization
    header (an empty one counts as none) is answered 403; otherwise a
    header that does not start with "Bearer " is answered 400; otherwise,
    when the token body is empty, 400, the token body being the segment
    of the header between its first and its second space and not all that
    follows the prefix; otherwise that segment is verified: an error named
    TokenExpiredError is answered 401 (expired), any other error 401
    (with the error), and only a successful verification calls the next
    handler, with the decoded [userId] attached. *)
Theorem gate_precedence (req : request) (w : World) :
  let outcome := fst (authMiddleware req w) in
  (falsy (authorization req) = true ->
     outcome = Normal (Responded token_missing)) /\
  (forall h, authorization req = Some h -> h <> "" ->
     startsWith h "Bearer " = false ->
     outcome = Normal (Responded scheme_malformed)) /\
  (forall h, authorization req = Some h -> startsWith h "Bearer " = true ->
     between_spaces h = Some "" ->
     outcome = Normal (Responded token_empty)) /\
  (forall h t, authorization req = Some h -> startsWith h "Bearer " = true ->
     between_spaces h = Some t -> t <> "" ->
     match jwt_verify t (JWT_SECRET w) (clock w) with
     | Throw e =>
         if err_name e =? "TokenExpiredError"
         then outcome = Normal (Responded token_expired)
         else outcome = Normal (Responded (token_invalid e))
     | Normal decoded =>
         outcome = Normal (Next (set_userId req (prop decoded "userId")))
     end) /\
  (forall req', outcome = Normal (Next req') ->
     exists h t decoded,
       authorization req = Some h /\ startsWith h "Bearer " = true /\
       between_spaces h = Some t /\ t <> "" /\
       jwt_verify t (JWT_SECRET w) (clock w) = Normal decoded /\
       req' = set_userId req (prop decoded "userId")).
Proof.
  cbv zeta. repeat split.
  - intros H. rewrite (gate_absent _ _ H). reflexivity.
  - intros h Hh Hne Hp. rewrite (gate_scheme _ _ _ Hh Hne Hp). reflexivity.
  - intros h Hh Hp Hb. rewrite (gate_empty _ _ _ Hh Hp Hb). reflexivity.
  - intros h t Hh Hp Hb Hne. rewrite (gate_verify _ _ _ _ Hh Hp Hb Hne).
    destruct (jwt_verify t (JWT_SECRET w) (clock w)) as [d|e]; [reflexivity|].
    destruct (err_name e =? "TokenExpiredError"); reflexivity.
  - intros req' H.
    destruct (gate_cases req w) as [(r & w' & E & _)|(h & t & d & Hh & Hp & Hb & Hne & Hj & E)];
      rewrite E in H; simpl in H; [discriminate|].
    injection H as <-. exists h, t, d. auto 10.
Qed.

(** C8: for a header "Bearer " followed by [t], the string handed to
    [jwt.verify] is the segment of the header between its first and its
    second space, that is [t] up to its first space; when that segment is
    empty the gate answers 400 without verifying.  So of "Bearer a b" only
    "a" is verified, and a header with two spaces after "Bearer" is
    rejected as an empty token. *)
Theorem gate_verifies_between_spaces (b : object) (p u : jsval) (t : string)
    (w : World) :
  let h := ("Bearer " ++ t)%string in
  let req := mkRequest (Some h) b p u in
  let rejected :=
    authMiddleware req w =
      (Normal (Responded token_empty),
       log_console "Token vazio após a remoção do prefixo 'Bearer'" w) in
  between_spaces h = Some (until_space t) /\
  (if until_space t =? "" then rejected
   else calls (snd (authMiddleware req w)) = CVerify (until_space t) :: calls w) /\
  (forall a rest, t = (a ++ String space rest)%string ->
     no_space a = true -> a <> "" ->
     calls (snd (authMiddleware req w)) = CVerify a :: calls w) /\
  (forall rest, t = String space rest -> rejected).
Proof.
  cbv zeta.
  set (req := mkRequest (Some ("Bearer " ++ t)%string) b p u).
  assert (Hh : authorization req = Some ("Bearer " ++ t)%string) by reflexivity.
  assert (Hp : startsWith ("Bearer " ++ t) "Bearer " = true) by apply app_prefix.
  assert (Hb : between_spaces ("Bearer " ++ t) = Some (until_space t))
    by apply between_spaces_bearer.
  assert (Hv : forall s, until_space t = s -> s <> "" ->
                 calls (snd (authMiddleware req w)) = CVerify s :: calls w).
  { intros s Hs Hne. rewrite <- Hs in Hne |- *.
    rewrite (gate_verify req _ _ w Hh Hp Hb Hne).
    destruct (jwt_verify _ _ _); reflexivity. }
  split; [exact Hb|]. split; [|split].
  - destruct (until_space t =? "") eqn:E.
    + apply String.eqb_eq in E. rewrite E in Hb.
      apply (gate_empty req _ w Hh Hp Hb).
    + apply eqb_false_iff in E. apply Hv; [reflexivity|exact E].
  - intros a rest Ht Ha Hne. apply Hv; [|exact Hne].
    rewrite Ht. apply until_space_app; exact Ha.
  - intros rest Ht. apply (gate_empty req _ w Hh Hp). rewrite Hb, Ht. reflexivity.
Qed.

End Gate.

(** Six requests, one for each way the gate can decide. *)
Lemma gate_precedence_witness :
  fst (@authMiddleware toy_jwt (request0 None []) world0)
    = Normal (Responded token_missing) /\
  fst (@authMiddleware toy_jwt (request0 (Some "Basic abc") []) world0)
    = Normal (Responded scheme_malformed) /\
  fst (@authMiddleware toy_jwt (request0 (Some "Bearer ") []) world0)
    = Normal (Responded token_empty) /\
  fst (@authMiddleware toy_jwt (request0 (Some "Bearer expired") []) world0)
    = Normal (Responded token_expired) /\
  fst (@authMiddleware toy_jwt (request0 (Some "Bearer garbage") []) world0)
    = Normal (Responded (token_invalid jwt_malformed)) /\
  fst (@authMiddleware toy_jwt (request0 (Some "Bearer jxx") []) world0)
    = Normal (Next (mkRequest (Some "Bearer jxx") [] JUndefined (JNum 2))).
Proof.
  refine (conj _ (conj _ (conj _ (conj _ (conj _ _))))).
  - apply (@gate_precedence toy_jwt (request0 None []) world0). reflexivity.
  - apply (@gate_precedence toy_jwt (request0 (Some "Basic abc") []) world0)
      with (h := "Basic abc"); [reflexivity|discriminate|reflexivity].
  - apply (@gate_precedence toy_jwt (request0 (Some "Bearer ") []) world0)
      with (h := "Bearer "); reflexivity.
  - pose proof (@gate_precedence toy_jwt (request0 (Some "Bearer expired") []) world0)
      as (_ & _ & _ & H & _).
    exact (H "Bearer expired" "expired" eq_refl eq_refl eq_refl
             ltac:(discriminate)).
  - pose proof (@gate_precedence toy_jwt (request0 (Some "Bearer garbage") []) world0)
      as (_ & _ & _ & H & _).
    exact (H "Bearer garbage" "garbage" eq_refl eq_refl eq_refl
             ltac:(discriminate)).
  - pose proof (@gate_precedence toy_jwt (request0 (Some "Bearer jxx") []) world0)
      as (_ & _ & _ & H & _).
    exact (H "Bearer jxx" "jxx" eq_refl eq_refl eq_refl ltac:(discriminate)).
Defined.

(** C1 as the claim words it fails on "Bearer  x".  What follows the
    scheme and its separator there is " x", which is not empty, so by the
    claim the answer is for verification to decide: 401, or the next
    handler.  The gate answers 400 from its empty-token branch and never
    verifies. *)
Lemma gate_precedence_as_stated_fails :
  ~ (forall (J : Jwt) (req : request) (w : World) (t : string),
       authorization req = Some ("Bearer " ++ t)%string -> t <> "" ->
       (exists req', fst (authMiddleware req w) = Normal (Next req')) \/
       (exists r, fst (authMiddleware req w) = Normal (Responded r) /\
                  status r = 401%Z)).
Proof.
  intros H.
  destruct (H toy_jwt (request0 (Some "Bearer  x") []) world0 " x" eq_refl
              ltac:(discriminate)) as [[req' E]|(r & E & Hs)].
  - discriminate E.
  - vm_compute in E. injection E as <-. discriminate Hs.
Qed.

(** An authorization header that is there but empty is not told apart
    from a missing one. *)
Example gate_empty_header :
  fst (@authMiddleware toy_jwt (request0 (Some "") []) world0)
    = Normal (Responded token_missing).
Proof. reflexivity. Qed.

(** "Bearer a b": only "a" reaches [jwt.verify]; "Bearer  x" is rejected
    as empty. *)
Lemma gate_verifies_between_spaces_witness :
  calls (snd (@authMiddleware toy_jwt (request0 (Some "Bearer a b") []) world0))
    = [CVerify "a"] /\
  @authMiddleware toy_jwt (request0 (Some "Bearer  x") []) world0
    = (Normal (Responded token_empty),
       log_console "Token vazio após a remoção do prefixo 'Bearer'" world0).
Proof.
  split.
  - pose proof (@gate_verifies_between_spaces toy_jwt [] JUndefined JUndefined
                  "a b" world0) as (_ & _ & H & _).
    exact (H "a" "b" eq_refl eq_refl ltac:(discriminate)).
  - pose proof (@gate_verifies_between_spaces toy_jwt [] JUndefined JUndefined
                  " x" world0) as (_ & _ & _ & H).
    exact (H "x" eq_refl).
Defined.

(** ** The store *)

Lemma ltrim_no_blank (s : string) : no_blank s = true -> ltrim s = s.
Proof.
  destruct s as [|a r]; simpl; [reflexivity|].
  destruct (is_space a); simpl; [discriminate|reflexivity].
Qed.

Lemma rtrim_no_blank (s : string) : no_blank s = true -> rtrim s = s.
Proof.
  induction s as [|a r IH]; simpl; [reflexivity|].
  destruct (is_space a); simpl; [discriminate|].
  destruct (Ascii.eqb a "+"); simpl; [discriminate|].
  intros H. rewrite (IH H). destruct r; reflexivity.
Qed.

Lemma no_blank_uint (d : Decimal.uint) :
  no_blank (NilEmpty.string_of_uint d) = true.
Proof. induction d; simpl; auto. Qed.

Lemma no_blank_decimal (n : Z) : no_blank (decimal n) = true.
Proof.
  unfold decimal. destruct (Z.to_int n) as [d|d]; simpl.
  - destruct d; try apply (no_blank_uint (_ _)); reflexivity.
  - destruct d; try apply (no_blank_uint (_ _)); reflexivity.
Qed.

(** An integer of the column's range, sent as its decimal text, is read
    back as itself. *)
Lemma int4in_decimal (n : Z) : in_int4 n = true -> int4in (decimal n) = Some n.
Proof.
  intros R. unfold int4in.
  rewrite (ltrim_no_blank _ (no_blank_decimal n)),
          (rtrim_no_blank _ (no_blank_decimal n)).
  assert (P : strip_plus (decimal n) = Some (decimal n)).
  { pose proof (no_blank_decimal n) as H.
    destruct (decimal n) as [|a r]; [reflexivity|].
    simpl in H |- *. destruct (Ascii.eqb a "+"); [|reflexivity].
    rewrite andb_false_r in H. discriminate. }
  rewrite P. unfold decimal.
  rewrite NilZero.isi.
  - rewrite DecimalZ.of_to, R. reflexivity.
  - destruct n; simpl; try discriminate.
    intros [= E]. exact (Unsigned.to_uint_nonnil _ E).
  - destruct n; simpl; try discriminate.
    intros [= E]. exact (Unsigned.to_uint_nonnil _ E).
Qed.

Lemma int4in_range (t : string) (n : Z) : int4in t = Some n -> in_int4 n = true.
Proof.
  unfold int4in. destruct (strip_plus _) as [b|]; [|discriminate].
  destruct (NilZero.int_of_string b) as [d|]; [|discriminate].
  destruct (in_int4 (Z.of_int d)) eqn:R; [|discriminate].
  intros [= <-]. exact R.
Qed.

Lemma coerce_text (v : jsval) : coerce TText v = Some (as_text v).
Proof. unfold coerce, as_text. destruct (pg_text v); reflexivity. Qed.

Lemma coerce_int_num (n : Z) :
  in_int4 n = true -> coerce TInt (JNum n) = Some (JNum n).
Proof. intros R. unfold coerce. simpl. rewrite (int4in_decimal n R). reflexivity. Qed.

(** What an integer column binds is NULL or an integer of its range. *)
Lemma coerce_int_inv (v v' : jsval) :
  coerce TInt v = Some v' ->
  v' = JNull \/ exists n, v' = JNum n /\ in_int4 n = true.
Proof.
  unfold coerce. destruct (pg_text v) as [t|]; [|intros [= <-]; auto].
  destruct (int4in t) as [n|] eqn:E; [|discriminate].
  intros [= <-]. right. exists n. split; [reflexivity|].
  exact (int4in_range _ _ E).
Qed.

Lemma truthy_as_text (v : jsval) :
  truthy v = true -> exists t, as_text v = JStr t.
Proof. destruct v; simpl; try discriminate; intros _; unfold as_text; simpl; eauto. Qed.

Lemma as_text_string (s : string) : as_text (JStr s) = JStr s.
Proof. reflexivity. Qed.

Lemma has_key_prop (o : object) (k : string) :
  has_key o k = false -> prop o k = JUndefined.
Proof.
  induction o as [|[k' v] o IH]; simpl; [reflexivity|].
  destruct (k' =? k); simpl; [discriminate|exact IH].
Qed.

(** A query either is rejected by the driver or is executed. *)
Lemma pool_query_cases (q : sql) (ps : list jsval) (w : World) :
  (exists fs, faults w = true :: fs /\
     pool_query q ps w =
       (Throw (pg_error "connection terminated"),
        set_faults fs (log_call (CQuery q ps) w))) \/
  (hd false (faults w) = false /\
     pool_query q ps w =
       (fst (exec q ps (db w)),
        set_db (snd (exec q ps (db w)))
               (set_faults (tl (faults w)) (log_call (CQuery q ps) w)))).
Proof.
  unfold pool_query. simpl.
  destruct (faults w) as [|[|] fs] eqn:E.
  - right. split; [reflexivity|]. destruct (exec q ps (db w)); reflexivity.
  - left. exists fs. split; reflexivity.
  - right. split; [reflexivity|]. destruct (exec q ps (db w)); reflexivity.
Qed.

Lemma exec_select_favorite (d : DB) (uid name : jsval) :
  exec select_favorite [uid; name] d =
    match coerce TInt uid with
    | Some u =>
        (Normal (filter (fun r => sql_eq (prop r "user_id") u
                                  && sql_eq (prop r "name") (as_text name))
                        (t_rows (favorites d))), d)
    | None => (Throw (pg_error "invalid input syntax for type integer"), d)
    end.
Proof.
  unfold exec, select_favorite. cbn [get_table String.eqb Ascii.eqb Bool.eqb].
  cbn [bind_all placeholder nth_error].
  change (column_type "user_id") with TInt.
  change (column_type "name") with TText.
  rewrite coerce_text.
  destruct (coerce TInt uid) as [u|]; [|reflexivity].
  f_equal. f_equal. apply filter_ext. intros r. unfold matches. simpl.
  rewrite andb_true_r. reflexivity.
Qed.

Lemma favorited_spec (d : DB) (uid name : jsval) :
  favorited d uid name =
    match coerce TInt uid with
    | Some u =>
        existsb (fun r => sql_eq (prop r "user_id") u
                          && sql_eq (prop r "name") (as_text name))
                (t_rows (favorites d))
    | None => false
    end.
Proof.
  unfold favorited, col_eq.
  change (column_type "user_id") with TInt.
  change (column_type "name") with TText.
  rewrite coerce_text.
  destruct (coerce TInt uid) as [u|]; [reflexivity|].
  induction (t_rows (favorites d)) as [|r rs IH]; simpl; [reflexivity|exact IH].
Qed.

Lemma filter_none {A} (f : A -> bool) (l : list A) :
  existsb f l = false -> filter f l = [].
Proof.
  induction l as [|x l IH]; simpl; [reflexivity|].
  destruct (f x); simpl; [discriminate|exact IH].
Qed.

(** When the user has no favorite of that name the SELECT finds no row,
    or fails. *)
Lemma select_favorite_none (d : DB) (uid name : jsval) :
  favorited d uid name = false ->
  exec select_favorite [uid; name] d = (Normal [], d) \/
  exists e, exec select_favorite [uid; name] d = (Throw e, d).
Proof.
  rewrite favorited_spec, exec_select_favorite.
  destruct (coerce TInt uid) as [u|]; [|eauto].
  intros H. left. rewrite (filter_none _ _ H). reflexivity.
Qed.

(** The INSERT of a favorite names three columns and gives two values. *)
Lemma insert_favorite_rejected (ps : list jsval) (d : DB) :
  exec insert_favorite ps d =
    (Throw (pg_error "INSERT has more target columns than expressions"), d).
Proof. reflexivity. Qed.

Lemma jsval_eqb_refl (v : jsval) : jsval_eqb v v = true.
Proof.
  destruct v; simpl; auto using Bool.eqb_reflx, Z.eqb_refl, String.eqb_refl.
Qed.

Lemma sql_eq_text (t : string) : sql_eq (JStr t) (JStr t) = true.
Proof. simpl. apply String.eqb_refl. Qed.

Lemma filter_first {A} (f : A -> bool) (l : list A) :
  nth_error (filter f l) 0 = find f l.
Proof.
  induction l as [|x l IH]; simpl; [reflexivity|].
  destruct (f x); [reflexivity|exact IH].
Qed.

Lemma find_pointwise {A} (f g : A -> bool) (l : list A) :
  (forall x, f x = g x) -> find f l = find g l.
Proof.
  intros H. induction l as [|x l IH]; simpl; [reflexivity|].
  rewrite H, IH. reflexivity.
Qed.

Lemma user_by_email_spec (d : DB) (email : jsval) :
  user_by_email d email =
    find (fun r => sql_eq (prop r "email") (as_text email)) (t_rows (users d)).
Proof.
  unfold user_by_email, col_eq. change (column_type "email") with TText.
  rewrite coerce_text. reflexivity.
Qed.

Lemma select_user_first (d : DB) (email : jsval) :
  exists rows, exec select_user_by_email [email] d = (Normal rows, d) /\
               nth_error rows 0 = user_by_email d email.
Proof.
  exists (filter (fun r => sql_eq (prop r "email") (as_text email))
                 (t_rows (users d))).
  split.
  - unfold exec, select_user_by_email.
    cbn [get_table String.eqb Ascii.eqb Bool.eqb bind_all placeholder nth_error].
    change (column_type "email") with TText. rewrite coerce_text.
    f_equal. f_equal. apply filter_ext. intros r. unfold matches. simpl.
    rewrite andb_true_r. reflexivity.
  - rewrite user_by_email_spec. apply filter_first.
Qed.

Lemma pool_query_frame (q : sql) (ps : list jsval) (w : World) :
  let w' := snd (pool_query q ps w) in
  JWT_SECRET w' = JWT_SECRET w /\ clock w' = clock w /\
  entropy w' = entropy w /\ calls w' = CQuery q ps :: calls w.
Proof.
  cbv zeta.
  destruct (pool_query_cases q ps w) as [(fs & _ & E)|(_ & E)]; rewrite E;
    simpl; auto.
Qed.

Lemma exec_insert_user (d : DB) (name email : jsval) (h : string) :
  exec insert_user [name; email; JStr h] d =
    let t := users d in
    let r := [("id", JNum (t_serial t)); ("name", as_text name);
              ("email", as_text email); ("password", JStr h)] in
    if negb (in_int4 (t_serial t)) then
      (Throw (pg_error "nextval: reached maximum value of sequence"), d)
    else if existsb (fun r' => sql_eq (prop r' "email") (as_text email)) (t_rows t)
    then (Throw (pg_error "duplicate key value violates unique constraint"),
          mkDB (mkTable (t_rows t) (t_serial t + 1)) (favorites d))
    else (Normal [r],
          mkDB (mkTable (t_rows t ++ [r]) (t_serial t + 1)) (favorites d)).
Proof.
  unfold exec, insert_user.
  cbn [get_table String.eqb Ascii.eqb Bool.eqb length Nat.ltb Nat.leb combine
       bind_all placeholder nth_error].
  change (column_type "name") with TText.
  change (column_type "email") with TText.
  change (column_type "password") with TText.
  rewrite !coerce_text, as_text_string. cbv zeta.
  destruct (negb (in_int4 (t_serial (users d)))); [reflexivity|].
  simpl. rewrite orb_false_r. reflexivity.
Qed.

(** ** The handlers *)

Section Handlers.
Context {B : Bcrypt} {J : Jwt}.

(** C5: a registration request that lacks [name], [email] or [password]
    is answered 400, and the world is left as it was: no row is written
    and no call is made to the store or to the hasher. *)
Theorem register_missing_field (req : request) (w : World) :
  has_key (body req) "name" = false \/
  has_key (body req) "email" = false \/
  has_key (body req) "password" = false ->
  register req w = (Normal fields_required, w).
Proof.
  intros H. unfold register.
  destruct H as [H|[H|H]]; apply has_key_prop in H; rewrite H; simpl;
    rewrite ?orb_true_r; reflexivity.
Qed.

Lemma removeFavorite_run (req : request) (w : World) :
  removeFavorite req w =
    (Normal remove_failed, log_console "Erro ao remover favorito:" w).
Proof. reflexivity. Qed.

(** C9: DELETE /api/favorites/:id answers 500 for every request the gate
    lets through: the identifier [id] of the query parameters is bound
    nowhere, so the query is never sent, neither the 200 nor the 404
    branch is reached, and the tables are left as they were. *)
Theorem remove_favorite_always_500 (req : request) (w : World) :
  (forall req' w', authMiddleware req w = (Normal (Next req'), w') ->
     delete_favorites req w =
       (Normal remove_failed, log_console "Erro ao remover favorito:" w')) /\
  (forall rq wq r, fst (removeFavorite rq wq) = Normal r -> status r = 500%Z) /\
  db (snd (delete_favorites req w)) = db w /\
  (forall q ps, In (CQuery q ps) (calls (snd (delete_favorites req w))) ->
                In (CQuery q ps) (calls w)).
Proof.
  unfold delete_favorites, protected, bind.
  split; [|split].
  - intros req' w' E. rewrite E. apply removeFavorite_run.
  - intros rq wq r. rewrite removeFavorite_run. simpl.
    intros E; injection E as <-. reflexivity.
  - pose proof (gate_frame req w) as (Hdb & _ & _ & _ & _ & Hc). cbv zeta in *.
    assert (Hq : forall q ps,
               In (CQuery q ps) (calls (snd (authMiddleware req w))) ->
               In (CQuery q ps) (calls w)).
    { intros q ps Hin. destruct Hc as [Hc|[t Hc]]; rewrite Hc in Hin;
        [exact Hin|]. destruct Hin as [Hin|Hin]; [discriminate|exact Hin]. }
    destruct (authMiddleware req w) as [[[r|req']|e] w']; simpl in *; auto.
Qed.

(** Once the SELECT has found nothing, the handler can only fail. *)
Lemma addFavorite_insert_fails (uid name : jsval) (w : World) :
  exists w',
    (try (insertResult <- pool_query insert_favorite [uid; name] ;;
          ret (mkResponse 201
                 [message "Favorito adicionado com sucesso.";
                  ("userId", BVal uid);
                  ("favorite", BRow (nth_error insertResult 0))]))
     catch (fun error =>
          console_error "Erro ao adicionar favorito:" ;;;
          ret add_failed)) w = (Normal add_failed, w') /\ db w' = db w.
Proof.
  run.
  destruct (pool_query_cases insert_favorite [uid; name] w)
    as [(fs & _ & E)|(_ & E)]; rewrite E.
  - eexists; split; reflexivity.
  - rewrite insert_favorite_rejected. simpl. eexists; split; reflexivity.
Qed.

Lemma addFavorite_fails (req : request) (w : World) :
  truthy (prop (body req) "name") = true ->
  truthy (prop (body req) "poke_id") = true ->
  favorited (db w) (userId req) (prop (body req) "name") = false ->
  exists w', addFavorite req w = (Normal add_failed, w') /\ db w' = db w.
Proof.
  intros Hn Hp Hf. unfold addFavorite. rewrite Hn, Hp. simpl.
  unfold try_catch at 1, bind at 1.
  destruct (pool_query_cases select_favorite [userId req; prop (body req) "name"] w)
    as [(fs & _ & E)|(_ & E)]; rewrite E.
  - eexists; split; reflexivity.
  - destruct (select_favorite_none _ _ _ Hf) as [S0|[e S0]]; rewrite S0;
      [|eexists; split; reflexivity].
    cbn [fst snd length Nat.ltb Nat.leb].
    match goal with |- context [set_db ?d ?w0] => set (w1 := set_db d w0) end.
    destruct (addFavorite_insert_fails (userId req) (prop (body req) "name") w1)
      as (w' & E' & Hdb).
    unfold try_catch, bind in E'. unfold bind.
    destruct (pool_query insert_favorite _ w1) as [[rows|e] w2]; simpl in *.
    + discriminate E'.
    + eexists; split; [reflexivity|]. injection E' as <-. exact Hdb.
Qed.

Lemma addFavorite_never_201 (req : request) (w : World) (r : response) :
  fst (addFavorite req w) = Normal r -> status r <> 201%Z.
Proof.
  unfold addFavorite.
  destruct (negb (truthy (prop (body req) "name"))
            || negb (truthy (prop (body req) "poke_id"))).
  { simpl. intros E; injection E as <-. discriminate. }
  unfold try_catch at 1, bind at 1.
  destruct (pool_query select_favorite _ w) as [[rows|e] w1].
  2:{ simpl. intros E; injection E as <-. discriminate. }
  destruct (0 <? length rows)%nat.
  { simpl. intros E; injection E as <-. discriminate. }
  destruct (addFavorite_insert_fails (userId req) (prop (body req) "name") w1)
    as (w' & E' & _).
  unfold try_catch, bind in E'. unfold bind.
  destruct (pool_query insert_favorite _ w1) as [[rows'|e] w2]; simpl in *.
  - discriminate E'.
  - intros E; injection E as <-. discriminate.
Qed.

(** C10: for a request the gate lets through, with [name] and [poke_id]
    present (truthy, as the handler tests them) and no favorite of that
    user under that name, POST
    /api/favorites answers 500 and writes nothing: the INSERT names three
    columns and gives two values, so the store rejects it.  The handler
    never answers 201. *)
Theorem add_favorite_always_500 (req req' : request) (w w' : World) :
  authMiddleware req w = (Normal (Next req'), w') ->
  truthy (prop (body req) "name") = true ->
  truthy (prop (body req) "poke_id") = true ->
  favorited (db w) (userId req') (prop (body req) "name") = false ->
  fst (post_favorites req w) = Normal add_failed /\
  db (snd (post_favorites req w)) = db w /\
  (forall rq wq r, fst (addFavorite rq wq) = Normal r -> status r <> 201%Z).
Proof.
  intros E Hn Hp Hf.
  pose proof (gate_frame req w) as (Hdb & _). cbv zeta in Hdb.
  assert (Hb : body req' = body req).
  { destruct (gate_cases req w)
      as [(r & w1 & E1 & _)|(h & t & d & _ & _ & _ & _ & _ & E1)];
      rewrite E1 in E; [discriminate|]. injection E as <- _. reflexivity. }
  unfold post_favorites, protected, bind. rewrite E in *. simpl in Hdb.
  rewrite <- Hb in Hn, Hp, Hf. rewrite <- Hdb in Hf.
  destruct (addFavorite_fails req' w' Hn Hp Hf) as (w2 & H1 & H2).
  rewrite H1. simpl. split; [reflexivity|]. split; [congruence|].
  intros rq wq r. apply addFavorite_never_201.
Qed.

(** The login handler, once its fields are present and the store
    answers the SELECT. *)
Lemma login_run (req : request) (w : World) :
  let email := prop (body req) "email" in
  let password := prop (body req) "password" in
  truthy email = true -> truthy password = true ->
  hd false (faults w) = false ->
  let w1 := set_faults (tl (faults w))
              (log_call (CQuery select_user_by_email [email]) w) in
  login req w =
    match user_by_email (db w) email with
    | None => (Normal user_not_found, w1)
    | Some user =>
        let w2 := log_call (CCompare password (prop user "password")) w1 in
        match bcrypt_compare password (prop user "password") with
        | Throw e => (Normal login_failed, log_console "Erro ao fazer login:" w2)
        | Normal false => (Normal wrong_password, w2)
        | Normal true =>
            let payload := [("userId", prop user "id")] in
            let w3 := log_call (CSign payload None) w2 in
            match jwt_sign payload (JWT_SECRET w) None (clock w) with
            | Normal tok => (Normal (logged_in tok (prop user "id")), w3)
            | Throw e =>
                (Normal login_failed, log_console "Erro ao fazer login:" w3)
            end
        end
    end.
Proof.
  intros email password He Hp Hf w1. unfold login.
  fold email password. rewrite He, Hp. simpl.
  unfold try_catch at 1, bind at 1.
  destruct (pool_query_cases select_user_by_email [email] w)
    as [(fs & Hfs & _)|(_ & E)].
  { rewrite Hfs in Hf. discriminate. }
  rewrite E.
  destruct (select_user_first (db w) email) as (rows & Hx & Hrows).
  rewrite Hx. cbn [fst snd]. rewrite <- Hrows.
  destruct rows as [|user rows']; [reflexivity|]. cbn [nth_error].
  unfold bind, bcrypt_compare_call, jwt_sign_call, ret, console_error.
  destruct (bcrypt_compare password (prop user "password")) as [[|]|e];
    try reflexivity.
  cbn. destruct (jwt_sign _ _ _ _); reflexivity.
Qed.

(** C4: a login request with [email] and [password] present (truthy, as
    the handler tests them), the store answering: no user with that email,
    404; a user whose stored digest
    the password does not match, 400; a match, a token is signed for the
    user's id and the answer is 200 with message, token and userId. *)
Theorem login_outcomes (req : request) (w : World) :
  let email := prop (body req) "email" in
  let password := prop (body req) "password" in
  truthy email = true -> truthy password = true ->
  hd false (faults w) = false ->
  (user_by_email (db w) email = None ->
     fst (login req w) = Normal user_not_found) /\
  (forall user, user_by_email (db w) email = Some user ->
     (bcrypt_compare password (prop user "password") = Normal false ->
        fst (login req w) = Normal wrong_password) /\
     (bcrypt_compare password (prop user "password") = Normal true ->
        forall tok,
          jwt_sign [("userId", prop user "id")] (JWT_SECRET w) None (clock w)
            = Normal tok ->
          fst (login req w) = Normal (logged_in tok (prop user "id")) /\
          In (CSign [("userId", prop user "id")] None)
             (calls (snd (login req w))))).
Proof.
  intros email password He Hp Hf.
  pose proof (login_run req w He Hp Hf) as R. cbv zeta in R. fold email password in R.
  split.
  - intros Hu. rewrite R, Hu. reflexivity.
  - intros user Hu. rewrite R, Hu. split.
    + intros Hc. rewrite Hc. reflexivity.
    + intros Hc tok Hs. rewrite Hc, Hs. simpl. auto.
Qed.

(** The registration handler, step by step, once its fields are present. *)
Lemma register_steps (req : request) (w : World) :
  let name := prop (body req) "name" in
  let email := prop (body req) "email" in
  let password := prop (body req) "password" in
  let failed w' := (Normal register_failed,
                    log_console "Erro ao registrar usuário:" w') in
  truthy name = true -> truthy email = true -> truthy password = true ->
  register req w =
    let w1 := log_call (CHash password 10) w in
    match bcrypt_hash password 10 (entropy w) with
    | Throw e => failed w1
    | Normal h =>
        match pool_query insert_user [name; email; JStr h] w1 with
        | (Throw e, w2) => failed w2
        | (Normal rows, w2) =>
            match nth_error rows 0 with
            | None => failed w2
            | Some user =>
                let payload := [("userId", prop user "id")] in
                let w3 := log_call (CSign payload None) w2 in
                match jwt_sign payload (JWT_SECRET w2) None (clock w2) with
                | Normal tok => (Normal (registered tok (prop user "id")), w3)
                | Throw e => failed w3
                end
            end
        end
    end.
Proof.
  intros name email password failed Hn He Hp. unfold register.
  fold name email password. rewrite Hn, He, Hp. simpl.
  unfold try_catch, bind, bcrypt_hash_call, jwt_sign_call, member, ret, throw,
    console_error, failed.
  destruct (bcrypt_hash password 10 (entropy w)) as [h|e]; [|reflexivity].
  destruct (pool_query insert_user [name; email; JStr h] _) as [[rows|e] w2];
    [|reflexivity].
  destruct rows as [|user rows']; [reflexivity|]. cbn [nth_error].
  destruct (jwt_sign _ _ _ _); reflexivity.
Qed.

(** The login handler, step by step, once its fields are present. *)
Lemma login_steps (req : request) (w : World) :
  let email := prop (body req) "email" in
  let password := prop (body req) "password" in
  let failed w' := (Normal login_failed,
                    log_console "Erro ao fazer login:" w') in
  truthy email = true -> truthy password = true ->
  login req w =
    match pool_query select_user_by_email [email] w with
    | (Throw e, w1) => failed w1
    | (Normal rows, w1) =>
        match nth_error rows 0 with
        | None => (Normal user_not_found, w1)
        | Some user =>
            let w2 := log_call (CCompare password (prop user "password")) w1 in
            match bcrypt_compare password (prop user "password") with
            | Throw e => failed w2
            | Normal false => (Normal wrong_password, w2)
            | Normal true =>
                let payload := [("userId", prop user "id")] in
                let w3 := log_call (CSign payload None) w2 in
                match jwt_sign payload (JWT_SECRET w2) None (clock w2) with
                | Normal tok => (Normal (logged_in tok (prop user "id")), w3)
                | Throw e => failed w3
                end
            end
        end
    end.
Proof.
  intros email password failed He Hp. unfold login.
  fold email password. rewrite He, Hp. simpl.
  unfold try_catch, bind, bcrypt_compare_call, jwt_sign_call, ret,
    console_error, failed.
  destruct (pool_query select_user_by_email [email] w) as [[rows|e] w1];
    [|reflexivity].
  destruct rows as [|user rows']; [reflexivity|]. cbn [nth_error].
  destruct (bcrypt_compare password (prop user "password")) as [[|]|e];
    try reflexivity.
  cbn. destruct (jwt_sign _ _ _ _); reflexivity.
Qed.

Lemma register_plain req w : answers_plainly register req w.
Proof.
  unfold answers_plainly.
  destruct (truthy (prop (body req) "name")) eqn:Hn;
  destruct (truthy (prop (body req) "email")) eqn:He;
  destruct (truthy (prop (body req) "password")) eqn:Hp;
    try (unfold register; rewrite Hn, He, Hp; simpl; eauto; fail).
  rewrite (register_steps req w Hn He Hp). cbv zeta.
  destruct (bcrypt_hash _ _ _); [|simpl; eauto].
  destruct (pool_query _ _ _) as [[rows|e] w2]; [|simpl; eauto].
  destruct (nth_error rows 0); [|simpl; eauto].
  destruct (jwt_sign _ _ _ _); simpl; eauto.
Qed.

Lemma login_plain req w : answers_plainly login req w.
Proof.
  unfold answers_plainly.
  destruct (truthy (prop (body req) "email")) eqn:He;
  destruct (truthy (prop (body req) "password")) eqn:Hp;
    try (unfold login; rewrite He, Hp; simpl; eauto; fail).
  rewrite (login_steps req w He Hp). cbv zeta.
  destruct (pool_query _ _ _) as [[rows|e] w1]; [|simpl; eauto].
  destruct (nth_error rows 0); [|simpl; eauto].
  destruct (bcrypt_compare _ _) as [[|]|e]; try (simpl; eauto; fail).
  destruct (jwt_sign _ _ _ _); simpl; eauto.
Qed.

Lemma addFavorite_plain req w : answers_plainly addFavorite req w.
Proof.
  unfold answers_plainly, addFavorite.
  destruct (negb (truthy (prop (body req) "name"))
            || negb (truthy (prop (body req) "poke_id"))); [simpl; eauto|].
  unfold try_catch, bind, ret, console_error.
  destruct (pool_query select_favorite _ w) as [[rows|e] w1]; [|simpl; eauto].
  destruct (0 <? length rows)%nat; [simpl; eauto|].
  destruct (pool_query insert_favorite _ w1) as [[rows'|e] w2]; simpl; eauto.
Qed.

Lemma listFavorites_plain req w : answers_plainly listFavorites req w.
Proof.
  unfold answers_plainly, listFavorites, try_catch, bind, ret, console_error.
  destruct (pool_query select_favorites _ w) as [[rows|e] w1]; simpl; eauto.
Qed.

Lemma removeFavorite_plain req w : answers_plainly removeFavorite req w.
Proof.
  unfold answers_plainly. rewrite removeFavorite_run. simpl. eauto.
Qed.

(** C7: in the register and login handlers, a failure of the hasher, of
    the store or of the signer is answered 500 with the handler's fixed
    message.  No handler ever puts an error object in its answer.  The
    gate does: when the verification of the token fails with an error
    other than TokenExpiredError, it answers 401 with that very error
    object as the message of the body; and this is the only answer of the
    gate that holds an error object. *)
Theorem failures_answered_generically (req : request) (w : World) :
  let name := prop (body req) "name" in
  let email := prop (body req) "email" in
  let password := prop (body req) "password" in
  (truthy name = true -> truthy email = true -> truthy password = true ->
     (forall e, fst (bcrypt_hash_call password 10 w) = Throw e ->
        fst (register req w) = Normal register_failed) /\
     (forall h w1 e,
        bcrypt_hash_call password 10 w = (Normal h, w1) ->
        fst (pool_query insert_user [name; email; JStr h] w1) = Throw e ->
        fst (register req w) = Normal register_failed) /\
     (forall h w1 rows w2 user e,
        bcrypt_hash_call password 10 w = (Normal h, w1) ->
        pool_query insert_user [name; email; JStr h] w1 = (Normal rows, w2) ->
        nth_error rows 0 = Some user ->
        fst (jwt_sign_call [("userId", prop user "id")] w2) = Throw e ->
        fst (register req w) = Normal register_failed)) /\
  (truthy email = true -> truthy password = true ->
     (forall e, fst (pool_query select_user_by_email [email] w) = Throw e ->
        fst (login req w) = Normal login_failed) /\
     (forall rows w1 user e,
        pool_query select_user_by_email [email] w = (Normal rows, w1) ->
        nth_error rows 0 = Some user ->
        fst (bcrypt_compare_call password (prop user "password") w1) = Throw e ->
        fst (login req w) = Normal login_failed) /\
     (forall rows w1 user w2 e,
        pool_query select_user_by_email [email] w = (Normal rows, w1) ->
        nth_error rows 0 = Some user ->
        bcrypt_compare_call password (prop user "password") w1
          = (Normal true, w2) ->
        fst (jwt_sign_call [("userId", prop user "id")] w2) = Throw e ->
        fst (login req w) = Normal login_failed)) /\
  (forall handler,
     In handler [register; login; addFavorite; listFavorites; removeFavorite] ->
     answers_plainly handler req w) /\
  (forall r, fst (authMiddleware req w) = Normal (Responded r) ->
     exposes_error r = true ->
     exists t e, jwt_verify t (JWT_SECRET w) (clock w) = Throw e /\
                 err_name e <> "TokenExpiredError" /\
                 status r = 401%Z /\ r = token_invalid e) /\
  (forall h t e,
     authorization req = Some h -> startsWith h "Bearer " = true ->
     between_spaces h = Some t -> t <> "" ->
     jwt_verify t (JWT_SECRET w) (clock w) = Throw e ->
     err_name e <> "TokenExpiredError" ->
     exists r,
       fst (authMiddleware req w) = Normal (Responded r) /\
       status r = 401%Z /\ json r = [("message", BError e)] /\
       exposes_error r = true) /\
  (forall e, exposes_error (token_invalid e) = true).
Proof.
  intros name email password.
  split; [|split; [|split; [|split; [|split]]]].
  - intros Hn He Hp.
    pose proof (register_steps req w Hn He Hp) as R. cbv zeta in R.
    fold name email password in R.
    unfold bcrypt_hash_call, jwt_sign_call. cbn beta iota delta [fst snd].
    repeat split.
    + intros e E. rewrite R, E. reflexivity.
    + intros h w1 e E Q. injection E as E <-. rewrite R, E.
      destruct (pool_query _ _ _) as [[rows|e'] w2]; simpl in Q;
        [discriminate|reflexivity].
    + intros h w1 rows w2 user e E Q U S0. injection E as E <-.
      rewrite R, E, Q, U, S0. reflexivity.
  - intros He Hp.
    pose proof (login_steps req w He Hp) as R. cbv zeta in R.
    fold email password in R.
    unfold bcrypt_compare_call, jwt_sign_call. cbn beta iota delta [fst snd].
    repeat split.
    + intros e Q. rewrite R.
      destruct (pool_query _ _ _) as [[rows|e'] w2]; simpl in Q;
        [discriminate|reflexivity].
    + intros rows w1 user e Q U C. rewrite R, Q, U, C. reflexivity.
    + intros rows w1 user w2 e Q U C S0. injection C as C <-.
      rewrite R, Q, U, C. cbn [JWT_SECRET clock log_call] in S0 |- *.
      rewrite S0. reflexivity.
  - intros handler [<-|[<-|[<-|[<-|[<-|[]]]]]].
    + apply register_plain.
    + apply login_plain.
    + apply addFavorite_plain.
    + apply listFavorites_plain.
    + apply removeFavorite_plain.
  - intros r E X.
    destruct (falsy (authorization req)) eqn:Hf.
    { rewrite (gate_absent _ _ Hf) in E. injection E as <-. discriminate X. }
    destruct (authorization req) as [h|] eqn:Hh; [|discriminate]. simpl in Hf.
    apply eqb_false_iff in Hf.
    destruct (startsWith h "Bearer ") eqn:Hp.
    2:{ rewrite (gate_scheme _ _ _ Hh Hf Hp) in E. injection E as <-.
        discriminate X. }
    destruct (prefix_app _ _ Hp) as [t0 Ht0].
    assert (Hb : between_spaces h = Some (until_space t0))
      by (rewrite Ht0; apply between_spaces_bearer).
    destruct (until_space t0 =? "") eqn:Ht.
    { apply String.eqb_eq in Ht. rewrite Ht in Hb.
      rewrite (gate_empty _ _ _ Hh Hp Hb) in E. injection E as <-.
      discriminate X. }
    apply eqb_false_iff in Ht.
    rewrite (gate_verify _ _ _ w Hh Hp Hb Ht) in E.
    destruct (jwt_verify (until_space t0) (JWT_SECRET w) (clock w)) as [d|e] eqn:V;
      [discriminate|].
    simpl in E. injection E as <-.
    destruct (err_name e =? "TokenExpiredError") eqn:N; [discriminate X|].
    apply String.eqb_neq in N. exists (until_space t0), e. auto.
  - intros h t e Hh Hp Hb Hne V N.
    rewrite (gate_verify _ _ _ w Hh Hp Hb Hne), V.
    apply String.eqb_neq in N. rewrite N.
    exists (token_invalid e). repeat split.
  - intros e. reflexivity.
Qed.

End Handlers.

(** ** Tokens: issued by the handlers, verified by the gate *)

Section Tokens.
Context {B : Bcrypt} {J : Jwt} {BL : BcryptLaws B} {JL : JwtLaws J}.

(** A request that carries a token signed for [uid] passes the gate with
    [uid] attached. *)
Lemma issued_token_passes (uid : jsval) (secret : option string) (now : Z)
    (tok : string) (req : request) (h : string) (w : World) :
  jwt_sign [("userId", uid)] secret None now = Normal tok ->
  JWT_SECRET w = secret ->
  authorization req = Some h -> startsWith h "Bearer " = true ->
  between_spaces h = Some tok ->
  authMiddleware req w =
    (Normal (Next (set_userId req uid)),
     log_console "Token decodificado:" (log_call (CVerify tok) w)).
Proof.
  intros Hs Hsec Hh Hp Hb.
  destruct (sign_compact _ _ _ _ _ Hs) as [Hne _].
  rewrite (gate_verify _ _ _ w Hh Hp Hb Hne).
  destruct (sign_verify _ _ now (clock w) _ Hs eq_refl) as (d & Hv & Hd).
  rewrite Hsec, Hv, Hd. reflexivity.
Qed.

(** Whatever the gate attaches after verifying [tok] is the [userId] of
    the payload of [tok]. *)
Lemma gate_attaches_claim (req req' : request) (w : World) (tok : string) :
  calls (snd (authMiddleware req w)) = CVerify tok :: calls w ->
  fst (authMiddleware req w) = Normal (Next req') ->
  exists decoded, jwt_decode tok = Some decoded /\
                  userId req' = prop decoded "userId".
Proof.
  intros Hc Hn.
  destruct (gate_verified_inv _ _ _ Hc) as (h & Hh & Hp & Hb & Hne).
  rewrite (gate_verify _ _ _ w Hh Hp Hb Hne) in Hn.
  destruct (jwt_verify tok (JWT_SECRET w) (clock w)) as [d|e] eqn:V;
    [|discriminate Hn].
  injection Hn as <-. exists d. split; [|reflexivity].
  exact (verify_decode _ _ _ _ V).
Qed.

(** C2: a token signed for the user identifier [A] binds exactly [A].  A
    request that presents it as "Bearer <token>" under the secret it was
    signed with passes the gate with [userId = A]; and whenever the gate
    verifies that token and lets the request through, the identifier
    attached is [A], never another [B]. *)
Theorem token_binds_user (A : jsval) (tok : string) (w0 : World) :
  fst (jwt_sign_call [("userId", A)] w0) = Normal tok ->
  (forall w b p u,
     JWT_SECRET w = JWT_SECRET w0 ->
     fst (authMiddleware (mkRequest (Some ("Bearer " ++ tok)%string) b p u) w)
       = Normal (Next (mkRequest (Some ("Bearer " ++ tok)%string) b p A))) /\
  (forall w req req',
     calls (snd (authMiddleware req w)) = CVerify tok :: calls w ->
     fst (authMiddleware req w) = Normal (Next req') ->
     userId req' = A /\ forall B', B' <> A -> userId req' <> B').
Proof.
  unfold jwt_sign_call. cbn [fst]. intros Hs.
  destruct (sign_compact _ _ _ _ _ Hs) as [Hne Hsp].
  split.
  - intros w b p u Hsec.
    set (req := mkRequest (Some ("Bearer " ++ tok)%string) b p u).
    assert (Hh : authorization req = Some ("Bearer " ++ tok)%string)
      by reflexivity.
    rewrite (issued_token_passes A _ _ tok req _ w Hs Hsec Hh).
    + reflexivity.
    + apply app_prefix.
    + rewrite between_spaces_bearer, until_space_no_space by exact Hsp.
      reflexivity.
  - intros w req req' Hc Hn.
    destruct (gate_attaches_claim _ _ _ _ Hc Hn) as (d & Hd & Hu).
    destruct (sign_decode _ _ _ _ Hs) as (d' & Hd' & Hu' & _).
    assert (d' = d) as -> by congruence.
    assert (E : userId req' = A) by (rewrite Hu, Hu'; reflexivity).
    split; [exact E|]. intros B' HB. congruence.
Qed.

Lemma existsb_pointwise {A} (f g : A -> bool) (l : list A) :
  (forall x, f x = g x) -> existsb f l = existsb g l.
Proof.
  intros H. induction l as [|x l IH]; simpl; [reflexivity|].
  rewrite H, IH. reflexivity.
Qed.

Lemma find_app_last {A} (f : A -> bool) (l : list A) (x : A) :
  existsb f l = false -> f x = true -> find f (l ++ [x]) = Some x.
Proof.
  intros Hl Hx. induction l as [|y l IH]; simpl in *; [rewrite Hx; reflexivity|].
  apply orb_false_iff in Hl as [Hy Hl]. rewrite Hy. apply IH, Hl.
Qed.

(** What a 201 from the registration handler tells about the run. *)
Lemma register_created_inv (req : request) (w : World) (tok : string) (uid : jsval) :
  let name := prop (body req) "name" in
  let email := prop (body req) "email" in
  let password := prop (body req) "password" in
  fst (register req w) = Normal (registered tok uid) ->
  truthy email = true /\ truthy password = true /\
  exists h,
    bcrypt_hash password 10 (entropy w) = Normal h /\
    jwt_sign [("userId", uid)] (JWT_SECRET w) None (clock w) = Normal tok /\
    let user := [("id", uid); ("name", as_text name); ("email", as_text email);
                 ("password", JStr h)] in
    existsb (fun r' => sql_eq (prop r' "email") (as_text email))
            (t_rows (users (db w))) = false /\
    t_rows (users (db (snd (register req w)))) = t_rows (users (db w)) ++ [user] /\
    uid = JNum (t_serial (users (db w))) /\
    in_int4 (t_serial (users (db w))) = true.
Proof.
  intros name email password H.
  destruct (truthy name) eqn:Hn; destruct (truthy email) eqn:He;
  destruct (truthy password) eqn:Hp;
    try (unfold register in H; fold name email password in H;
         rewrite Hn, He, Hp in H; discriminate H).
  split; [reflexivity|]. split; [reflexivity|].
  pose proof (register_steps req w Hn He Hp) as R. cbv zeta in R.
  fold name email password in R. rewrite R in H |- *. clear R.
  destruct (bcrypt_hash password 10 (entropy w)) as [h|e]; [|discriminate H].
  exists h. split; [reflexivity|].
  set (w1 := log_call (CHash password 10) w) in *.
  pose proof (pool_query_frame insert_user [name; email; JStr h] w1)
    as (Fs & Fc & _).
  destruct (pool_query_cases insert_user [name; email; JStr h] w1)
    as [(fs & _ & E)|(_ & E)]; rewrite E in H, Fs, Fc |- *; [discriminate H|].
  rewrite exec_insert_user in H, Fs, Fc |- *. cbv zeta in *.
  change (db w1) with (db w) in *.
  destruct (in_int4 (t_serial (users (db w)))) eqn:R; [|discriminate H].
  cbn [negb] in H, Fs, Fc |- *.
  destruct (existsb (fun r' => sql_eq (prop r' "email") (as_text email))
                    (t_rows (users (db w)))) eqn:X; [discriminate H|].
  cbn [fst snd nth_error prop String.eqb Ascii.eqb Bool.eqb] in H, Fs, Fc |- *.
  rewrite Fs, Fc in H |- *. change (JWT_SECRET w1) with (JWT_SECRET w) in *.
  change (clock w1) with (clock w) in *.
  destruct (jwt_sign _ (JWT_SECRET w) None (clock w)) as [tok'|e] eqn:S0;
    [|discriminate H].
  cbn [fst] in H. injection H as -> <-.
  split; [exact S0|]. repeat split; reflexivity.
Qed.

(** What a token in an answer of the two handlers tells about the run. *)
Lemma register_token_inv (req : request) (w : World) (r : response) (tok : string) :
  fst (register req w) = Normal r -> token_of r = Some tok ->
  exists uid, jwt_sign [("userId", uid)] (JWT_SECRET w) None (clock w) = Normal tok.
Proof.
  intros H T.
  destruct (truthy (prop (body req) "name")) eqn:Hn;
  destruct (truthy (prop (body req) "email")) eqn:He;
  destruct (truthy (prop (body req) "password")) eqn:Hp;
    try (unfold register in H; rewrite Hn, He, Hp in H; simpl in H;
         injection H as <-; discriminate T).
  rewrite (register_steps req w Hn He Hp) in H. cbv zeta in H.
  destruct (bcrypt_hash _ _ _) as [h|e];
    [|simpl in H; injection H as <-; discriminate T].
  match type of H with context [pool_query ?q ?ps ?w1] =>
    pose proof (pool_query_frame q ps w1) as (Fs & Fc & _);
    destruct (pool_query q ps w1) as [[rows|e] w2]
  end; [|simpl in H; injection H as <-; discriminate T].
  cbn [snd] in Fs, Fc. rewrite Fs, Fc in H. cbn [JWT_SECRET clock log_call] in H.
  destruct (nth_error rows 0) as [user|];
    [|simpl in H; injection H as <-; discriminate T].
  destruct (jwt_sign _ _ _ _) as [tok'|e] eqn:S0;
    simpl in H; injection H as <-; [|discriminate T].
  injection T as <-. eauto.
Qed.

Lemma login_token_inv (req : request) (w : World) (r : response) (tok : string) :
  fst (login req w) = Normal r -> token_of r = Some tok ->
  exists uid, jwt_sign [("userId", uid)] (JWT_SECRET w) None (clock w) = Normal tok.
Proof.
  intros H T.
  destruct (truthy (prop (body req) "email")) eqn:He;
  destruct (truthy (prop (body req) "password")) eqn:Hp;
    try (unfold login in H; rewrite He, Hp in H; simpl in H;
         injection H as <-; discriminate T).
  rewrite (login_steps req w He Hp) in H. cbv zeta in H.
  match type of H with context [pool_query ?q ?ps ?w1] =>
    pose proof (pool_query_frame q ps w1) as (Fs & Fc & _);
    destruct (pool_query q ps w1) as [[rows|e] w2]
  end; [|simpl in H; injection H as <-; discriminate T].
  cbn [snd] in Fs, Fc. cbn [JWT_SECRET clock log_call] in H. rewrite Fs, Fc in H.
  destruct (nth_error rows 0) as [user|];
    [|simpl in H; injection H as <-; discriminate T].
  destruct (bcrypt_compare _ _) as [[|]|e];
    try (simpl in H; injection H as <-; discriminate T).
  destruct (jwt_sign _ _ _ _) as [tok'|e] eqn:S0;
    simpl in H; injection H as <-; [|discriminate T].
  injection T as <-. eauto.
Qed.

(** C3: when registration answers 201 with a userId, a login with the
    same email and password against the store as registration left it
    answers 200 with a token, and that token verifies to a payload whose
    [userId] is the one registration returned. *)
Theorem register_then_login (req req2 : request) (w w2 : World) (tok : string)
    (uid : jsval) :
  fst (register req w) = Normal (registered tok uid) ->
  prop (body req2) "email" = prop (body req) "email" ->
  prop (body req2) "password" = prop (body req) "password" ->
  db w2 = db (snd (register req w)) ->
  JWT_SECRET w2 = JWT_SECRET w ->
  hd false (faults w2) = false ->
  exists tok2,
    fst (login req2 w2) = Normal (logged_in tok2 uid) /\
    forall now, exists decoded,
      jwt_verify tok2 (JWT_SECRET w2) now = Normal decoded /\
      prop decoded "userId" = uid.
Proof.
  intros Hreg Eem Epw Hdb Hsec Hf.
  destruct (register_created_inv req w tok uid Hreg)
    as (He & Hp & h & Hh & Hs & X & Hrows & _). cbv zeta in X, Hrows.
  set (email := prop (body req) "email") in *.
  set (password := prop (body req) "password") in *.
  set (user := [("id", uid); ("name", as_text (prop (body req) "name"));
                ("email", as_text email); ("password", JStr h)]) in *.
  assert (Hu : user_by_email (db w2) email = Some user).
  { rewrite user_by_email_spec, Hdb, Hrows. apply find_app_last.
    - exact X.
    - change (prop user "email") with (as_text email).
      destruct (truthy_as_text _ He) as [t ->]. apply sql_eq_text. }
  destruct (sign_any_time _ _ _ _ (clock w2) _ Hs) as [tok2 Hs2].
  exists tok2. split.
  - assert (He2 : truthy (prop (body req2) "email") = true) by (rewrite Eem; exact He).
    assert (Hp2 : truthy (prop (body req2) "password") = true)
      by (rewrite Epw; exact Hp).
    rewrite (login_run req2 w2 He2 Hp2 Hf). cbv zeta.
    rewrite Eem, Epw. fold email password. rewrite Hu.
    change (prop user "password") with (JStr h).
    change (prop user "id") with uid.
    rewrite (hash_compare _ _ _ _ Hh), Hsec, Hs2. reflexivity.
  - intros now. rewrite Hsec. apply (sign_verify _ _ (clock w2) now _ Hs2).
    reflexivity.
Qed.

(** C6: the two handlers sign with a payload that has no [exp] and with
    no options, so whenever the gate verifies a token that one of them
    issued, under whatever secret and at whatever time, its answer is not
    the expired one; under the secret of the issue the request goes
    through. *)
Theorem issued_tokens_never_expire (req : request) (w : World) :
  (forall handler payload opts,
     In handler [register; login] ->
     In (CSign payload opts) (calls (snd (handler req w))) ->
     In (CSign payload opts) (calls w) \/
     (opts = None /\ has_key payload "exp" = false)) /\
  (forall handler r tok,
     In handler [register; login] ->
     fst (handler req w) = Normal r -> token_of r = Some tok ->
     forall greq w',
       calls (snd (authMiddleware greq w')) = CVerify tok :: calls w' ->
       fst (authMiddleware greq w') <> Normal (Responded token_expired) /\
       (JWT_SECRET w' = JWT_SECRET w ->
        exists greq', fst (authMiddleware greq w') = Normal (Next greq'))).
Proof.
  split.
  - intros handler payload opts Hh Hin.
    destruct Hh as [<-|[<-|[]]].
    + destruct (truthy (prop (body req) "name")) eqn:Hn;
      destruct (truthy (prop (body req) "email")) eqn:He;
      destruct (truthy (prop (body req) "password")) eqn:Hp;
        try (unfold register in Hin; rewrite Hn, He, Hp in Hin; simpl in Hin;
             auto; fail).
      rewrite (register_steps req w Hn He Hp) in Hin. cbv zeta in Hin.
      destruct (bcrypt_hash _ _ _) as [h|e];
        [|simpl in Hin; destruct Hin as [Hin|Hin]; [discriminate|auto]].
      match type of Hin with context [pool_query ?q ?ps ?w1] =>
        pose proof (pool_query_frame q ps w1) as (_ & _ & _ & Fc);
        destruct (pool_query q ps w1) as [[rows|e] w2]
      end; cbn [snd] in Fc.
      2:{ simpl in Hin. rewrite Fc in Hin. simpl in Hin.
          destruct Hin as [Hin|[Hin|Hin]]; try discriminate; auto. }
      destruct (nth_error rows 0) as [user|].
      2:{ simpl in Hin. rewrite Fc in Hin. simpl in Hin.
          destruct Hin as [Hin|[Hin|Hin]]; try discriminate; auto. }
      destruct (jwt_sign _ _ _ _); simpl in Hin; rewrite Fc in Hin; simpl in Hin;
        destruct Hin as [Hin|[Hin|[Hin|Hin]]]; try discriminate; auto;
        injection Hin as <- <-; right; split; reflexivity.
    + destruct (truthy (prop (body req) "email")) eqn:He;
      destruct (truthy (prop (body req) "password")) eqn:Hp;
        try (unfold login in Hin; rewrite He, Hp in Hin; simpl in Hin;
             auto; fail).
      rewrite (login_steps req w He Hp) in Hin. cbv zeta in Hin.
      match type of Hin with context [pool_query ?q ?ps ?w1] =>
        pose proof (pool_query_frame q ps w1) as (_ & _ & _ & Fc);
        destruct (pool_query q ps w1) as [[rows|e] w2]
      end; cbn [snd] in Fc.
      2:{ simpl in Hin. rewrite Fc in Hin. simpl in Hin.
          destruct Hin as [Hin|Hin]; try discriminate; auto. }
      destruct (nth_error rows 0) as [user|].
      2:{ simpl in Hin. rewrite Fc in Hin. simpl in Hin.
          destruct Hin as [Hin|Hin]; try discriminate; auto. }
      destruct (bcrypt_compare _ _) as [[|]|e];
        try (simpl in Hin; rewrite Fc in Hin; simpl in Hin;
             destruct Hin as [Hin|[Hin|Hin]]; try discriminate; auto; fail).
      destruct (jwt_sign _ _ _ _); simpl in Hin; rewrite Fc in Hin; simpl in Hin;
        destruct Hin as [Hin|[Hin|[Hin|Hin]]]; try discriminate; auto;
        injection Hin as <- <-; right; split; reflexivity.
  - intros handler r tok Hh Hr Ht greq w' Hc.
    assert (Hs : exists uid,
       jwt_sign [("userId", uid)] (JWT_SECRET w) None (clock w) = Normal tok).
    { destruct Hh as [<-|[<-|[]]];
        [eapply register_token_inv|eapply login_token_inv]; eassumption. }
    destruct Hs as [uid Hs].
    destruct (gate_verified_inv _ _ _ Hc) as (h & Hh' & Hp & Hb & Hne).
    split.
    + rewrite (gate_verify _ _ _ w' Hh' Hp Hb Hne).
      destruct (jwt_verify tok (JWT_SECRET w') (clock w')) as [d|e] eqn:V;
        [discriminate|].
      destruct (err_name e =? "TokenExpiredError") eqn:N; [|discriminate].
      apply String.eqb_eq in N.
      destruct (verify_expired _ _ _ _ V N) as (d & Hd & Hx).
      destruct (sign_decode _ _ _ _ Hs) as (d' & Hd' & _ & Hx').
      assert (d' = d) as -> by congruence.
      rewrite (Hx' eq_refl) in Hx. discriminate Hx.
    + intros Hsec.
      rewrite (issued_token_passes uid _ _ tok greq h w' Hs Hsec Hh' Hp Hb).
      simpl. eauto.
Qed.

End Tokens.

(** ** The theorems at work on concrete requests *)

Lemma register_missing_field_witness :
  has_key [("name", JStr "A"); ("email", JStr "a@x.com")] "password" = false /\
  @register toy_bcrypt toy_jwt
     (request0 None [("name", JStr "A"); ("email", JStr "a@x.com")]) world0
    = (Normal fields_required, world0).
Proof.
  split; [reflexivity|].
  apply (@register_missing_field toy_bcrypt toy_jwt). right; right. reflexivity.
Defined.

Lemma login_outcomes_witness :
  fst (@login toy_bcrypt toy_jwt (request0 None (credentials "b@x.com" "p")) world1)
    = Normal user_not_found /\
  fst (@login toy_bcrypt toy_jwt (request0 None (credentials "a@x.com" "q")) world1)
    = Normal wrong_password /\
  fst (@login toy_bcrypt toy_jwt (request0 None (credentials "a@x.com" "p")) world1)
    = Normal (logged_in "jx" (JNum 1)) /\
  (* the email sent as the number 5 finds the user whose email is "5" *)
  fst (@login toy_bcrypt toy_jwt
         (request0 None [("email", JNum 5); ("password", JStr "p")]) world5)
    = Normal (logged_in "jx" (JNum 1)).
Proof.
  refine (conj _ (conj _ (conj _ _))).
  - apply (@login_outcomes toy_bcrypt toy_jwt
             (request0 None (credentials "b@x.com" "p")) world1);
      reflexivity.
  - pose proof (@login_outcomes toy_bcrypt toy_jwt
             (request0 None (credentials "a@x.com" "q")) world1
             eq_refl eq_refl eq_refl) as (_ & H).
    exact (proj1 (H _ eq_refl) eq_refl).
  - pose proof (@login_outcomes toy_bcrypt toy_jwt
             (request0 None (credentials "a@x.com" "p")) world1
             eq_refl eq_refl eq_refl) as (_ & H).
    exact (proj1 (proj2 (H _ eq_refl) eq_refl "jx" eq_refl)).
  - pose proof (@login_outcomes toy_bcrypt toy_jwt
             (request0 None [("email", JNum 5); ("password", JStr "p")]) world5
             eq_refl eq_refl eq_refl) as (_ & H).
    exact (proj1 (proj2 (H _ eq_refl) eq_refl "jx" eq_refl)).
Defined.

Lemma token_binds_user_witness :
  fst (@jwt_sign_call toy_jwt [("userId", JNum 2)] world0) = Normal "jxx" /\
  fst (@authMiddleware toy_jwt (request0 (Some "Bearer jxx") []) world1)
    = Normal (Next (mkRequest (Some "Bearer jxx") [] JUndefined (JNum 2))).
Proof.
  split; [reflexivity|].
  apply (proj1 (@token_binds_user toy_jwt toy_jwt_laws (JNum 2) "jxx" world0
                  eq_refl)).
  reflexivity.
Defined.

Lemma register_then_login_witness :
  fst (@register toy_bcrypt toy_jwt (request0 None new_user) world0)
    = Normal (registered "jx" (JNum 1)) /\
  exists tok2,
    fst (@login toy_bcrypt toy_jwt (request0 None (credentials "a@x.com" "p"))
           (snd (@register toy_bcrypt toy_jwt (request0 None new_user) world0)))
      = Normal (logged_in tok2 (JNum 1)) /\
    forall now, exists decoded,
      @jwt_verify toy_jwt tok2 (Some "secret") now = Normal decoded /\
      prop decoded "userId" = JNum 1.
Proof.
  split; [reflexivity|].
  apply (@register_then_login toy_bcrypt toy_jwt toy_bcrypt_laws toy_jwt_laws
           (request0 None new_user) (request0 None (credentials "a@x.com" "p"))
           world0 _ "jx" (JNum 1)); reflexivity.
Defined.

Lemma issued_tokens_never_expire_witness :
  token_of (registered "jx" (JNum 1)) = Some "jx" /\
  fst (@authMiddleware toy_jwt (request0 (Some "Bearer jx") []) world1)
    <> Normal (Responded token_expired).
Proof.
  split; [reflexivity|].
  apply (proj2 (@issued_tokens_never_expire toy_bcrypt toy_jwt toy_jwt_laws
                  (request0 None new_user) world0)
           register (registered "jx" (JNum 1)) "jx"
           (or_introl eq_refl) eq_refl eq_refl
           (request0 (Some "Bearer jx") []) world1 eq_refl).
Defined.

Lemma failures_answered_generically_witness :
  (* the hasher rejects a number *)
  fst (@register toy_bcrypt toy_jwt
         (request0 None [("name", JStr "A"); ("email", JStr "a@x.com");
                         ("password", JNum 5)]) world0)
    = Normal register_failed /\
  (* the store is unreachable *)
  fst (@register toy_bcrypt toy_jwt (request0 None new_user) world_down)
    = Normal register_failed /\
  (* there is no secret to sign with *)
  fst (@register toy_bcrypt toy_jwt (request0 None new_user) world_no_secret)
    = Normal register_failed /\
  fst (@login toy_bcrypt toy_jwt (request0 None (credentials "a@x.com" "p"))
         world_down)
    = Normal login_failed /\
  (* the gate hands the error of the verifier to the client *)
  exists r,
    fst (@authMiddleware toy_jwt (request0 (Some "Bearer garbage") []) world0)
      = Normal (Responded r) /\
    status r = 401%Z /\ json r = [("message", BError jwt_malformed)] /\
    exposes_error r = true.
Proof.
  refine (conj _ (conj _ (conj _ (conj _ _)))).
  - pose proof (@failures_answered_generically toy_bcrypt toy_jwt
        (request0 None [("name", JStr "A"); ("email", JStr "a@x.com");
                        ("password", JNum 5)]) world0) as (H & _).
    exact (proj1 (H eq_refl eq_refl eq_refl) illegal_arguments eq_refl).
  - pose proof (@failures_answered_generically toy_bcrypt toy_jwt
        (request0 None new_user) world_down) as (H & _).
    exact (proj1 (proj2 (H eq_refl eq_refl eq_refl))
             "$p" _ (pg_error "connection terminated") eq_refl eq_refl).
  - pose proof (@failures_answered_generically toy_bcrypt toy_jwt
        (request0 None new_user) world_no_secret) as (H & _).
    exact (proj2 (proj2 (H eq_refl eq_refl eq_refl))
             "$p" _ _ _ _ no_secret eq_refl eq_refl eq_refl eq_refl).
  - pose proof (@failures_answered_generically toy_bcrypt toy_jwt
        (request0 None (credentials "a@x.com" "p")) world_down) as (_ & H & _).
    exact (proj1 (H eq_refl eq_refl) (pg_error "connection terminated") eq_refl).
  - pose proof (@failures_answered_generically toy_bcrypt toy_jwt
        (request0 (Some "Bearer garbage") []) world0) as (_ & _ & _ & _ & H & _).
    apply (H "Bearer garbage" "garbage" jwt_malformed);
      try reflexivity; discriminate.
Defined.

Lemma remove_favorite_always_500_witness :
  fst (@delete_favorites toy_jwt
         (mkRequest (Some "Bearer jxx") [] (JStr "25") JUndefined) world1)
    = Normal remove_failed.
Proof.
  pose proof (@remove_favorite_always_500 toy_jwt
                (mkRequest (Some "Bearer jxx") [] (JStr "25") JUndefined) world1)
    as (H & _).
  rewrite (H _ _ eq_refl). reflexivity.
Defined.

Lemma add_favorite_always_500_witness :
  fst (@post_favorites toy_jwt
         (request0 (Some "Bearer jxx")
            [("name", JStr "pikachu"); ("poke_id", JNum 25)]) world1)
    = Normal add_failed.
Proof.
  apply (@add_favorite_always_500 toy_jwt
           (request0 (Some "Bearer jxx")
              [("name", JStr "pikachu"); ("poke_id", JNum 25)])
           _ world1 _ eq_refl eq_refl eq_refl eq_refl).
Defined.

(** * Further properties of the handlers *)

(** ** What a request can do to the store *)

Lemma exec_select_db (name : string) (conds : list (string * nat))
    (ps : list jsval) (d : DB) :
  snd (exec (Select name conds) ps d) = d.
Proof.
  simpl. destruct (get_table d name); [|reflexivity].
  destruct (bind_all ps conds); reflexivity.
Qed.

Lemma pool_query_select_db (name : string) (conds : list (string * nat))
    (ps : list jsval) (w : World) :
  db (snd (pool_query (Select name conds) ps w)) = db w.
Proof.
  destruct (pool_query_cases (Select name conds) ps w) as [(fs & _ & E)|(_ & E)];
    rewrite E; [reflexivity|]. cbn [snd set_db db]. apply exec_select_db.
Qed.

Lemma pool_query_insert_favorite_db (ps : list jsval) (w : World) :
  db (snd (pool_query insert_favorite ps w)) = db w.
Proof.
  destruct (pool_query_cases insert_favorite ps w) as [(fs & _ & E)|(_ & E)];
    rewrite E; reflexivity.
Qed.

Lemma pool_query_insert_user_db (name email : jsval) (h : string) (w : World) :
  let w' := snd (pool_query insert_user [name; email; JStr h] w) in
  favorites (db w') = favorites (db w) /\
  exists added, t_rows (users (db w')) = t_rows (users (db w)) ++ added /\
                (length added <= 1)%nat.
Proof.
  cbv zeta.
  destruct (pool_query_cases insert_user [name; email; JStr h] w)
    as [(fs & _ & E)|(_ & E)]; rewrite E.
  - split; [reflexivity|]. exists []. rewrite app_nil_r. simpl. auto.
  - rewrite exec_insert_user. cbv zeta.
    destruct (negb (in_int4 (t_serial (users (db w))))).
    { cbn [snd set_db db]. split; [reflexivity|]. exists [].
      rewrite app_nil_r. simpl. auto. }
    destruct (existsb (fun r' => sql_eq (prop r' "email") (as_text email))
                      (t_rows (users (db w))));
      cbn [snd set_db db users favorites t_rows].
    + split; [reflexivity|]. exists []. rewrite app_nil_r. simpl. auto.
    + split; [reflexivity|]. eexists. split; [reflexivity|]. simpl. auto.
Qed.

Lemma pool_query_insert_user_ids (name email : jsval) (h : string) (w : World) :
  integer_ids (db w) ->
  integer_ids (db (snd (pool_query insert_user [name; email; JStr h] w))).
Proof.
  intros H.
  destruct (pool_query_cases insert_user [name; email; JStr h] w)
    as [(fs & _ & E)|(_ & E)]; rewrite E; [exact H|].
  rewrite exec_insert_user. cbv zeta.
  destruct (in_int4 (t_serial (users (db w)))) eqn:R; cbn [negb]; [|exact H].
  destruct (existsb (fun r' => sql_eq (prop r' "email") (as_text email))
                    (t_rows (users (db w)))); [exact H|].
  intros u Hin. cbn [snd set_db db users t_rows] in Hin.
  apply in_app_or in Hin as [Hin|[<-|[]]]; [exact (H u Hin)|].
  exists (t_serial (users (db w))). split; [reflexivity|exact R].
Qed.

Section Footprint.
Context {B : Bcrypt} {J : Jwt}.

Lemma login_db (req : request) (w : World) : db (snd (login req w)) = db w.
Proof.
  unfold login.
  destruct (negb (truthy (prop (body req) "email"))
            || negb (truthy (prop (body req) "password"))); [reflexivity|].
  unfold try_catch, bind, bcrypt_compare_call, jwt_sign_call, ret, console_error.
  pose proof (pool_query_select_db "users" [("email", 1%nat)]
                [prop (body req) "email"] w) as Hq.
  fold select_user_by_email in Hq.
  destruct (pool_query select_user_by_email _ w) as [[rows|e] w1];
    cbn [snd] in Hq; [|exact Hq].
  destruct (nth_error rows 0) as [user|]; [|exact Hq].
  destruct (bcrypt_compare _ _) as [[|]|e]; try exact Hq.
  cbn. destruct (jwt_sign _ _ _ _); exact Hq.
Qed.

Lemma listFavorites_db (req : request) (w : World) :
  db (snd (listFavorites req w)) = db w.
Proof.
  unfold listFavorites, try_catch, bind, ret, console_error.
  pose proof (pool_query_select_db "favorites" [("user_id", 1%nat)]
                [userId req] w) as Hq.
  fold select_favorites in Hq.
  destruct (pool_query select_favorites _ w) as [[rows|e] w1]; exact Hq.
Qed.

Lemma addFavorite_db (req : request) (w : World) :
  db (snd (addFavorite req w)) = db w.
Proof.
  unfold addFavorite.
  destruct (negb (truthy (prop (body req) "name"))
            || negb (truthy (prop (body req) "poke_id"))); [reflexivity|].
  unfold try_catch, bind, ret, console_error.
  pose proof (pool_query_select_db "favorites"
                [("user_id", 1%nat); ("name", 2%nat)]
                [userId req; prop (body req) "name"] w) as Hq.
  fold select_favorite in Hq.
  destruct (pool_query select_favorite _ w) as [[rows|e] w1];
    cbn [snd] in Hq; [|exact Hq].
  destruct (0 <? length rows)%nat; [exact Hq|].
  pose proof (pool_query_insert_favorite_db
                [userId req; prop (body req) "name"] w1) as Hi.
  destruct (pool_query insert_favorite _ w1) as [[rows'|e] w2];
    cbn [snd] in Hi |- *; cbn [db log_console]; congruence.
Qed.

Lemma register_db (req : request) (w : World) :
  let w' := snd (register req w) in
  favorites (db w') = favorites (db w) /\
  exists added, t_rows (users (db w')) = t_rows (users (db w)) ++ added /\
                (length added <= 1)%nat.
Proof.
  cbv zeta.
  assert (Same : favorites (db w) = favorites (db w) /\
     exists added, t_rows (users (db w)) = t_rows (users (db w)) ++ added /\
                   (length added <= 1)%nat).
  { split; [reflexivity|]. exists []. rewrite app_nil_r. simpl. auto. }
  unfold register.
  destruct (negb (truthy (prop (body req) "name"))
            || negb (truthy (prop (body req) "email"))
            || negb (truthy (prop (body req) "password"))); [exact Same|].
  unfold try_catch, bind, bcrypt_hash_call, jwt_sign_call, member, ret, throw,
    console_error.
  destruct (bcrypt_hash _ _ _) as [h|e]; [|exact Same].
  match goal with |- context [pool_query insert_user ?ps ?w1] =>
    pose proof (pool_query_insert_user_db (prop (body req) "name")
                  (prop (body req) "email") h w1) as Hq;
    destruct (pool_query insert_user ps w1) as [[rows|e] w2]
  end; cbv zeta in Hq; cbn [snd] in Hq; [|exact Hq].
  destruct rows as [|user rows']; [exact Hq|]. cbn [nth_error].
  destruct (jwt_sign _ _ _ _); exact Hq.
Qed.

(** X6: of the five handlers only registration writes, and it only
    appends to the users table, at most one row; login, the listing, the
    adding and the removing of favorites leave every table as it was. *)
Theorem handlers_footprint (req : request) (w : World) :
  db (snd (login req w)) = db w /\
  db (snd (listFavorites req w)) = db w /\
  db (snd (addFavorite req w)) = db w /\
  db (snd (removeFavorite req w)) = db w /\
  favorites (db (snd (register req w))) = favorites (db w) /\
  exists added,
    t_rows (users (db (snd (register req w)))) = t_rows (users (db w)) ++ added /\
    (length added <= 1)%nat.
Proof.
  split; [apply login_db|]. split; [apply listFavorites_db|].
  split; [apply addFavorite_db|]. split; [rewrite removeFavorite_run; reflexivity|].
  apply (register_db req w).
Qed.

Lemma protected_db (handler : request -> M response) (req : request) (w : World) :
  (forall rq wq, db (snd (handler rq wq)) = db wq) ->
  db (snd (protected handler req w)) = db w.
Proof.
  intros H. unfold protected, bind.
  pose proof (gate_frame req w) as (Hdb & _). cbv zeta in Hdb.
  destruct (authMiddleware req w) as [[[r|req']|e] w']; cbn [snd] in *;
    try exact Hdb.
  rewrite H. exact Hdb.
Qed.

Lemma serve_db (rt : route) (req : request) (w : World) :
  let w' := snd (serve rt req w) in
  favorites (db w') = favorites (db w) /\
  exists added, t_rows (users (db w')) = t_rows (users (db w)) ++ added /\
                (length added <= 1)%nat.
Proof.
  cbv zeta.
  assert (Same : forall w', db w' = db w ->
     favorites (db w') = favorites (db w) /\
     exists added, t_rows (users (db w')) = t_rows (users (db w)) ++ added /\
                   (length added <= 1)%nat).
  { intros w' ->. split; [reflexivity|]. exists []. rewrite app_nil_r.
    simpl. auto. }
  destruct rt; simpl.
  - apply (register_db req w).
  - apply Same, login_db.
  - apply Same, protected_db. intros; apply addFavorite_db.
  - apply Same, protected_db. intros; apply listFavorites_db.
  - apply Same, protected_db. intros. rewrite removeFavorite_run. reflexivity.
Qed.

Lemma serve_all_db (history : list (env * route * request)) (w : World) :
  favorites (db (serve_all history w)) = favorites (db w) /\
  exists added,
    t_rows (users (db (serve_all history w))) = t_rows (users (db w)) ++ added /\
    (length added <= length history)%nat.
Proof.
  revert w. induction history as [|[[e rt] req] rest IH]; intros w.
  - split; [reflexivity|]. exists []. rewrite app_nil_r. simpl. auto.
  - cbn [serve_all length].
    destruct (IH (snd (serve rt req (arrive e w)))) as (F & added & U & L).
    destruct (serve_db rt req (arrive e w)) as (F1 & added1 & U1 & L1).
    split; [rewrite F, F1; reflexivity|].
    exists (added1 ++ added). split.
    + rewrite U, U1. cbn [arrive db]. rewrite app_assoc. reflexivity.
    + rewrite length_app. lia.
Qed.

Lemma register_ids (req : request) (w : World) :
  integer_ids (db w) -> integer_ids (db (snd (register req w))).
Proof.
  intros H. unfold register.
  destruct (negb (truthy (prop (body req) "name"))
            || negb (truthy (prop (body req) "email"))
            || negb (truthy (prop (body req) "password"))); [exact H|].
  unfold try_catch, bind, bcrypt_hash_call, jwt_sign_call, member, ret, throw,
    console_error.
  destruct (bcrypt_hash _ _ _) as [h|e]; [|exact H].
  match goal with |- context [pool_query insert_user ?ps ?w1] =>
    pose proof (pool_query_insert_user_ids (prop (body req) "name")
                  (prop (body req) "email") h w1 H) as Hq;
    destruct (pool_query insert_user ps w1) as [[rows|e] w2]
  end; cbn [snd] in Hq; [|exact Hq].
  destruct rows as [|user rows']; [exact Hq|]. cbn [nth_error].
  destruct (jwt_sign _ _ _ _); exact Hq.
Qed.

Lemma serve_ids (rt : route) (req : request) (w : World) :
  integer_ids (db w) -> integer_ids (db (snd (serve rt req w))).
Proof.
  intros H.
  assert (Same : forall w', db w' = db w -> integer_ids (db w')).
  { intros w' ->. exact H. }
  destruct rt; simpl.
  - apply register_ids, H.
  - apply Same, login_db.
  - apply Same, protected_db. intros; apply addFavorite_db.
  - apply Same, protected_db. intros; apply listFavorites_db.
  - apply Same, protected_db. intros. rewrite removeFavorite_run. reflexivity.
Qed.

Lemma serve_all_ids (history : list (env * route * request)) (w : World) :
  integer_ids (db w) -> integer_ids (db (serve_all history w)).
Proof.
  revert w. induction history as [|[[e rt] req] rest IH]; intros w H.
  - exact H.
  - cbn [serve_all]. apply IH, serve_ids. exact H.
Qed.

(** X15: the identifiers of the users stay integers of the column's
    range.  If every row of the users table has such an [id], so has
    every row after any history of requests, whatever the requests hold:
    what registration stores as [id] is the number the sequence gave. *)
Theorem history_keeps_integer_ids (history : list (env * route * request))
    (w : World) :
  integer_ids (db w) -> integer_ids (db (serve_all history w)).
Proof. apply serve_all_ids. Qed.

(** X7: whatever requests are served, in whatever order and whatever
    happens around them, the favorites table stays exactly as it was, and
    the users table only grows at its end, by at most one row for each
    request. *)
Theorem history_keeps_store (history : list (env * route * request)) (w : World) :
  favorites (db (serve_all history w)) = favorites (db w) /\
  exists added,
    t_rows (users (db (serve_all history w))) = t_rows (users (db w)) ++ added /\
    (length added <= length history)%nat.
Proof. apply serve_all_db. Qed.

End Footprint.

(** ** Validation and the answers of the handlers *)

Lemma jsval_eqb_eq (a b : jsval) : jsval_eqb a b = true -> a = b.
Proof.
  destruct a, b; simpl; intros H; try discriminate; try reflexivity.
  - apply Bool.eqb_prop in H. congruence.
  - apply Z.eqb_eq in H. congruence.
  - apply String.eqb_eq in H. congruence.
  - apply String.eqb_eq in H. congruence.
Qed.

Lemma sql_eq_eq (cell v : jsval) : sql_eq cell v = true -> cell = v.
Proof. destruct v; simpl; try discriminate; apply jsval_eqb_eq. Qed.

Lemma find_none_existsb {A} (f : A -> bool) (l : list A) :
  find f l = None -> existsb f l = false.
Proof.
  induction l as [|x l IH]; simpl; [reflexivity|].
  destruct (f x); [discriminate|exact IH].
Qed.

Lemma existsb_filter_length {A} (f : A -> bool) (l : list A) :
  existsb f l = true -> (0 <? length (filter f l))%nat = true.
Proof.
  induction l as [|x l IH]; simpl; [discriminate|].
  destruct (f x); simpl; [reflexivity|exact IH].
Qed.

Lemma exec_select_favorites (d : DB) (uid : jsval) :
  exec select_favorites [uid] d =
    match coerce TInt uid with
    | Some u =>
        (Normal (filter (fun r => sql_eq (prop r "user_id") u)
                        (t_rows (favorites d))), d)
    | None => (Throw (pg_error "invalid input syntax for type integer"), d)
    end.
Proof.
  unfold exec, select_favorites. cbn [get_table String.eqb Ascii.eqb Bool.eqb].
  cbn [bind_all placeholder nth_error].
  change (column_type "user_id") with TInt.
  destruct (coerce TInt uid) as [u|]; [|reflexivity].
  f_equal. f_equal. apply filter_ext. intros r. unfold matches. simpl.
  rewrite andb_true_r. reflexivity.
Qed.

Section Answers.
Context {B : Bcrypt} {J : Jwt}.

(** X1: registration treats a field that is an empty string, null, zero
    or false like a missing one: 400, and the world is left as it was. *)
Theorem register_falsy_field (req : request) (w : World) :
  truthy (prop (body req) "name") = false \/
  truthy (prop (body req) "email") = false \/
  truthy (prop (body req) "password") = false ->
  register req w = (Normal fields_required, w).
Proof.
  intros H. unfold register.
  destruct H as [H|[H|H]]; rewrite H; simpl; rewrite ?orb_true_r; reflexivity.
Qed.

(** X2: login without a usable [email] or [password] (missing, empty,
    null, zero or false) is answered 400 before the store or the hasher
    is called; the world is left as it was. *)
Theorem login_falsy_field (req : request) (w : World) :
  truthy (prop (body req) "email") = false \/
  truthy (prop (body req) "password") = false ->
  login req w = (Normal fields_required, w).
Proof.
  intros H. unfold login.
  destruct H as [H|H]; rewrite H; simpl; rewrite ?orb_true_r; reflexivity.
Qed.

(** X8: adding a favorite without a usable [name] or [poke_id] is
    answered 400 with the world left as it was; and when the user already
    has a favorite of that name, the answer is 400 after the one SELECT,
    with no INSERT sent. *)
Theorem add_favorite_rejections (req : request) (w : World) :
  let name := prop (body req) "name" in
  let poke_id := prop (body req) "poke_id" in
  (truthy name = false \/ truthy poke_id = false ->
     addFavorite req w = (Normal favorite_fields_required, w)) /\
  (truthy name = true -> truthy poke_id = true ->
   hd false (faults w) = false ->
   favorited (db w) (userId req) name = true ->
     fst (addFavorite req w) = Normal already_favorited /\
     calls (snd (addFavorite req w))
       = CQuery select_favorite [userId req; name] :: calls w).
Proof.
  intros name poke_id. split.
  - intros H. unfold addFavorite. fold name poke_id.
    destruct H as [H|H]; rewrite H; simpl; rewrite ?orb_true_r; reflexivity.
  - intros Hn Hp Hf Hfav. unfold addFavorite. fold name poke_id.
    rewrite Hn, Hp. cbn [negb orb].
    unfold try_catch, bind, ret, console_error.
    destruct (pool_query_cases select_favorite [userId req; name] w)
      as [(fs & Hfs & _)|(_ & E)].
    { rewrite Hfs in Hf. discriminate. }
    rewrite favorited_spec in Hfav.
    rewrite E, exec_select_favorite. cbn beta iota delta [fst snd].
    change (db (log_call (CQuery select_favorite [userId req; name]) w))
      with (db w).
    destruct (coerce TInt (userId req)) as [u|]; [|discriminate Hfav].
    cbn beta iota delta [fst snd].
    pose proof (existsb_filter_length _ _ Hfav) as L.
    match goal with |- context [(0 <? ?n)%nat] =>
      replace (0 <? n)%nat with true by (symmetry; exact L)
    end.
    split; reflexivity.
Qed.

(** X9: the listing binds [req.userId] to the integer column [user_id].
    When the driver rejects the query, or the identifier is a text that
    spells no integer, the answer is 500; otherwise it is 200 with the
    identifier as the gate attached it and exactly the rows of the
    favorites table whose [user_id] is the integer it spells.  So a row
    of another user is never listed, the identifier "2" lists what 2
    lists, and an identifier that is undefined or null lists nothing. *)
Theorem list_favorites_own (req : request) (w : World) :
  let uid := userId req in
  let rows := t_rows (favorites (db w)) in
  let listed v := filter (fun r => sql_eq (prop r "user_id") v) rows in
  fst (listFavorites req w) =
    (match faults w, coerce TInt uid with
     | true :: _, _ => Normal list_failed
     | _, None => Normal list_failed
     | _, Some v => Normal (favorites_listed uid (listed v))
     end) /\
  (forall v r, In r (listed v) -> In r rows /\ prop r "user_id" = v) /\
  (forall n r, In r rows -> prop r "user_id" = JNum n -> In r (listed (JNum n))) /\
  (forall n, in_int4 n = true ->
     coerce TInt (JNum n) = Some (JNum n) /\
     coerce TInt (JStr (decimal n)) = Some (JNum n)) /\
  (uid = JUndefined \/ uid = JNull ->
     coerce TInt uid = Some JNull /\ listed JNull = []).
Proof.
  intros uid rows listed. split; [|split; [|split; [|split]]].
  - unfold listFavorites, try_catch, bind, ret, console_error. fold uid.
    destruct (pool_query_cases select_favorites [uid] w)
      as [(fs & Hfs & E)|(Hf & E)]; rewrite E.
    + rewrite Hfs. reflexivity.
    + rewrite exec_select_favorites. fold rows.
      assert (F : match faults w, coerce TInt uid with
                  | true :: _, _ => Normal list_failed
                  | _, None => Normal list_failed
                  | _, Some v => Normal (favorites_listed uid (listed v))
                  end
                  = match coerce TInt uid with
                    | None => Normal list_failed
                    | Some v => Normal (favorites_listed uid (listed v))
                    end).
      { destruct (faults w) as [|[|] fs]; try reflexivity. discriminate Hf. }
      rewrite F. destruct (coerce TInt uid); reflexivity.
  - intros v r Hin. apply filter_In in Hin as [Hin Hm].
    split; [exact Hin|]. apply sql_eq_eq, Hm.
  - intros n r Hin Hu. apply filter_In. split; [exact Hin|].
    rewrite Hu. simpl. apply Z.eqb_refl.
  - intros n R. split; [apply coerce_int_num, R|].
    unfold coerce. simpl. rewrite (int4in_decimal n R). reflexivity.
  - intros Hu. split.
    + destruct Hu as [E|E]; rewrite E; reflexivity.
    + unfold listed. induction rows as [|r rs IH]; [reflexivity|exact IH].
Qed.

End Answers.

(** ** Registration and login, forwards and backwards *)

Section Accounts.
Context {B : Bcrypt} {J : Jwt}.

(** Registration with usable fields, a digest, a store that answers, a
    sequence within range and an email not yet taken: the row is written,
    then the token is signed. *)
Lemma register_inserts (req : request) (w : World) (h : string) :
  let name := prop (body req) "name" in
  let email := prop (body req) "email" in
  let password := prop (body req) "password" in
  let id := JNum (t_serial (users (db w))) in
  let user := [("id", id); ("name", as_text name); ("email", as_text email);
               ("password", JStr h)] in
  truthy name = true -> truthy email = true -> truthy password = true ->
  bcrypt_hash password 10 (entropy w) = Normal h ->
  hd false (faults w) = false ->
  in_int4 (t_serial (users (db w))) = true ->
  user_by_email (db w) email = None ->
  fst (register req w) =
    (match jwt_sign [("userId", id)] (JWT_SECRET w) None (clock w) with
     | Normal tok => Normal (registered tok id)
     | Throw _ => Normal register_failed
     end) /\
  db (snd (register req w)) =
    mkDB (mkTable (t_rows (users (db w)) ++ [user]) (t_serial (users (db w)) + 1))
         (favorites (db w)).
Proof.
  intros name email password id user Hn He Hp Hh Hf Hr Hu.
  pose proof (register_steps req w Hn He Hp) as R. cbv zeta in R.
  fold name email password in R. rewrite R, Hh. clear R.
  set (w1 := log_call (CHash password 10) w).
  destruct (pool_query_cases insert_user [name; email; JStr h] w1)
    as [(fs & Hfs & _)|(_ & E)].
  { change (faults w1) with (faults w) in Hfs. rewrite Hfs in Hf. discriminate. }
  rewrite E, exec_insert_user. cbv zeta. change (db w1) with (db w).
  rewrite Hr. cbn [negb].
  assert (X : existsb (fun r' => sql_eq (prop r' "email") (as_text email))
                      (t_rows (users (db w))) = false).
  { apply find_none_existsb. rewrite <- user_by_email_spec. exact Hu. }
  destruct (existsb (fun r' => sql_eq (prop r' "email") (as_text email))
                    (t_rows (users (db w)))); [discriminate X|].
  cbn [fst snd nth_error prop String.eqb Ascii.eqb Bool.eqb].
  change (JWT_SECRET (set_db _ _)) with (JWT_SECRET w).
  change (clock (set_db _ _)) with (clock w).
  fold id.
  destruct (jwt_sign [("userId", id)] (JWT_SECRET w) None (clock w));
    split; reflexivity.
Qed.

Lemma find_inserted (d : DB) (email : jsval) (user : row) (serial : Z)
    (fav : table) :
  truthy email = true ->
  user_by_email d email = None ->
  prop user "email" = as_text email ->
  user_by_email (mkDB (mkTable (t_rows (users d) ++ [user]) serial) fav) email
    = Some user.
Proof.
  intros He Hu Hp. rewrite user_by_email_spec in *. cbn [users t_rows].
  apply find_app_last.
  - apply find_none_existsb, Hu.
  - rewrite Hp. destruct (truthy_as_text _ He) as [t ->]. apply sql_eq_text.
Qed.

(** X3: a registration with usable fields, whose email is not yet in the
    users table, answers 201 with the signed token and the identifier the
    sequence gave; it appends one row that holds the name and the email
    as the text they were sent as and the digest bcrypt returned in place
    of the password, and a lookup by that email then finds this row. *)
Theorem register_creates_user (req : request) (w : World) (h tok : string) :
  let name := prop (body req) "name" in
  let email := prop (body req) "email" in
  let password := prop (body req) "password" in
  let id := JNum (t_serial (users (db w))) in
  let user := [("id", id); ("name", as_text name); ("email", as_text email);
               ("password", JStr h)] in
  truthy name = true -> truthy email = true -> truthy password = true ->
  bcrypt_hash password 10 (entropy w) = Normal h ->
  hd false (faults w) = false ->
  in_int4 (t_serial (users (db w))) = true ->
  user_by_email (db w) email = None ->
  jwt_sign [("userId", id)] (JWT_SECRET w) None (clock w) = Normal tok ->
  fst (register req w) = Normal (registered tok id) /\
  t_rows (users (db (snd (register req w)))) = t_rows (users (db w)) ++ [user] /\
  user_by_email (db (snd (register req w))) email = Some user.
Proof.
  intros name email password id user Hn He Hp Hh Hf Hr Hu Hs.
  destruct (register_inserts req w h Hn He Hp Hh Hf Hr Hu) as [R D].
  fold name email password id in R, D. rewrite Hs in R.
  split; [exact R|]. rewrite D. split; [reflexivity|].
  apply find_inserted; [exact He|exact Hu|reflexivity].
Qed.

(** X4: when the signing fails after the INSERT went through, the answer
    is the 500 of a failed registration and yet the user's row is in the
    table: the handler does not undo the write. *)
Theorem register_keeps_row_on_sign_failure (req : request) (w : World)
    (h : string) (e : error) :
  let name := prop (body req) "name" in
  let email := prop (body req) "email" in
  let password := prop (body req) "password" in
  let id := JNum (t_serial (users (db w))) in
  let user := [("id", id); ("name", as_text name); ("email", as_text email);
               ("password", JStr h)] in
  truthy name = true -> truthy email = true -> truthy password = true ->
  bcrypt_hash password 10 (entropy w) = Normal h ->
  hd false (faults w) = false ->
  in_int4 (t_serial (users (db w))) = true ->
  user_by_email (db w) email = None ->
  jwt_sign [("userId", id)] (JWT_SECRET w) None (clock w) = Throw e ->
  fst (register req w) = Normal register_failed /\
  user_by_email (db (snd (register req w))) email = Some user.
Proof.
  intros name email password id user Hn He Hp Hh Hf Hr Hu Hs.
  destruct (register_inserts req w h Hn He Hp Hh Hf Hr Hu) as [R D].
  fold name email password id in R, D. rewrite Hs in R.
  split; [exact R|]. rewrite D.
  apply find_inserted; [exact He|exact Hu|reflexivity].
Qed.

(** What a token in an answer of the login handler tells about the run. *)
Lemma login_issue_inv (req : request) (w : World) (r : response) (tok : string) :
  let email := prop (body req) "email" in
  let password := prop (body req) "password" in
  fst (login req w) = Normal r -> token_of r = Some tok ->
  exists user,
    user_by_email (db w) email = Some user /\
    bcrypt_compare password (prop user "password") = Normal true /\
    jwt_sign [("userId", prop user "id")] (JWT_SECRET w) None (clock w)
      = Normal tok /\
    r = logged_in tok (prop user "id").
Proof.
  intros email password H T.
  destruct (truthy email) eqn:He; destruct (truthy password) eqn:Hp;
    try (unfold login in H; fold email password in H; rewrite He, Hp in H;
         simpl in H; injection H as <-; discriminate T).
  pose proof (login_steps req w He Hp) as R. cbv zeta in R.
  fold email password in R. rewrite R in H. clear R.
  destruct (pool_query_cases select_user_by_email [email] w)
    as [(fs & _ & E)|(_ & E)]; rewrite E in H.
  { simpl in H. injection H as <-. discriminate T. }
  destruct (select_user_first (db w) email) as (rows & Hx & Hrows).
  rewrite Hx in H. cbn [fst snd] in H. rewrite Hrows in H.
  destruct (user_by_email (db w) email) as [user|];
    [|simpl in H; injection H as <-; discriminate T].
  exists user. split; [reflexivity|].
  destruct (bcrypt_compare password (prop user "password")) as [[|]|e];
    try (simpl in H; injection H as <-; discriminate T).
  split; [reflexivity|].
  cbn [JWT_SECRET clock log_call set_db set_faults] in H.
  destruct (jwt_sign _ _ _ _) as [tok'|e];
    simpl in H; injection H as <-; [|discriminate T].
  injection T as <-. split; reflexivity.
Qed.

(** X5: login hands out a token only when a row of the users table has
    for its email the text the request's email was sent as, and bcrypt
    found the password of the request to match the digest of that row;
    the token is the one signed for the id of that row, and the answer is
    the 200 that carries both. *)
Theorem login_token_needs_match (req : request) (w : World) (r : response)
    (tok : string) :
  let email := prop (body req) "email" in
  let password := prop (body req) "password" in
  fst (login req w) = Normal r -> token_of r = Some tok ->
  exists user sent,
    In user (t_rows (users (db w))) /\
    pg_text email = Some sent /\
    prop user "email" = JStr sent /\
    bcrypt_compare password (prop user "password") = Normal true /\
    jwt_sign [("userId", prop user "id")] (JWT_SECRET w) None (clock w)
      = Normal tok /\
    r = logged_in tok (prop user "id").
Proof.
  intros email password H T.
  destruct (login_issue_inv req w r tok H T) as (user & Hu & Hc & Hs & Hr).
  fold email password in Hu, Hc.
  rewrite user_by_email_spec in Hu. apply find_some in Hu as [Hin Hm].
  assert (Hsent : exists sent, pg_text email = Some sent /\
                               prop user "email" = JStr sent).
  { unfold as_text in Hm. destruct (pg_text email) as [sent|];
      [|discriminate Hm]. exists sent. split; [reflexivity|].
    apply sql_eq_eq, Hm. }
  destruct Hsent as (sent & Hp & He).
  exists user, sent. auto 10.
Qed.

End Accounts.

(** ** The gate in front of the favorites *)

Section Protected.
Context {B : Bcrypt} {J : Jwt}.

(** The five answers of the gate. *)
Lemma gate_answers (req : request) (w w' : World) (r : response) :
  authMiddleware req w = (Normal (Responded r), w') ->
  r = token_missing \/ r = scheme_malformed \/ r = token_empty \/
  r = token_expired \/ exists e, r = token_invalid e.
Proof.
  intros E.
  destruct (falsy (authorization req)) eqn:Hf.
  { rewrite (gate_absent _ _ Hf) in E. injection E as <- _. auto. }
  destruct (authorization req) as [h|] eqn:Hh; [|discriminate]. simpl in Hf.
  apply eqb_false_iff in Hf.
  destruct (startsWith h "Bearer ") eqn:Hp.
  2:{ rewrite (gate_scheme _ _ _ Hh Hf Hp) in E. injection E as <- _. auto. }
  destruct (prefix_app _ _ Hp) as [t0 Ht0].
  assert (Hb : between_spaces h = Some (until_space t0))
    by (rewrite Ht0; apply between_spaces_bearer).
  destruct (until_space t0 =? "") eqn:Ht.
  { apply String.eqb_eq in Ht. rewrite Ht in Hb.
    rewrite (gate_empty _ _ _ Hh Hp Hb) in E. injection E as <- _. auto. }
  apply eqb_false_iff in Ht.
  rewrite (gate_verify _ _ _ w Hh Hp Hb Ht) in E.
  destruct (jwt_verify (until_space t0) (JWT_SECRET w) (clock w)) as [d|e];
    [discriminate|].
  injection E as <- _.
  destruct (err_name e =? "TokenExpiredError"); eauto 10.
Qed.

Lemma gate_answer_status (req : request) (w w' : World) (r : response) :
  authMiddleware req w = (Normal (Responded r), w') ->
  In (status r) [400; 401; 403]%Z.
Proof.
  intros E.
  destruct (gate_answers _ _ _ _ E) as [->|[->|[->|[->|[e ->]]]]]; simpl; auto.
Qed.

(** X10: a request the gate answers itself never reaches the handler
    behind it: the answer of the route is the gate's, with status 400,
    401 or 403, the tables are untouched and no query has been sent. *)
Theorem rejected_requests_stop_at_gate (handler : request -> M response)
    (req : request) (w w' : World) (r : response) :
  authMiddleware req w = (Normal (Responded r), w') ->
  protected handler req w = (Normal r, w') /\
  In (status r) [400; 401; 403]%Z /\
  db w' = db w /\
  (forall q ps, In (CQuery q ps) (calls w') -> In (CQuery q ps) (calls w)).
Proof.
  intros E.
  pose proof (gate_frame req w) as (Hdb & _ & _ & _ & _ & Hc).
  cbv zeta in Hdb, Hc. rewrite E in Hdb, Hc. cbn [snd] in Hdb, Hc.
  split; [unfold protected, bind; rewrite E; reflexivity|].
  split; [exact (gate_answer_status _ _ _ _ E)|]. split; [exact Hdb|].
  intros q ps Hin. destruct Hc as [Hc|[t Hc]]; rewrite Hc in Hin; [exact Hin|].
  destruct Hin as [Hin|Hin]; [discriminate|exact Hin].
Qed.

(** X11: whatever follows a second space in the header is ignored: the
    gate decides "Bearer <a> <rest>" exactly as it decides "Bearer <a>",
    with the same answer or the same identifier attached, the same call
    to [jwt.verify] and the same log. *)
Theorem gate_ignores_trailing (b : object) (p u : jsval) (a rest : string)
    (w : World) :
  no_space a = true ->
  let short := mkRequest (Some ("Bearer " ++ a)%string) b p u in
  let long := mkRequest (Some ("Bearer " ++ a ++ String space rest)%string) b p u in
  verdict (fst (authMiddleware long w)) = verdict (fst (authMiddleware short w)) /\
  snd (authMiddleware long w) = snd (authMiddleware short w).
Proof.
  intros Ha short long.
  assert (Hs : between_spaces ("Bearer " ++ a) = Some a).
  { change (Some (until_space a) = Some a). f_equal.
    apply until_space_no_space, Ha. }
  assert (Hl : between_spaces ("Bearer " ++ a ++ String space rest) = Some a).
  { change (Some (until_space (a ++ String space rest)) = Some a). f_equal.
    apply until_space_app, Ha. }
  assert (Hhs : authorization short = Some ("Bearer " ++ a)%string) by reflexivity.
  assert (Hhl : authorization long
                = Some ("Bearer " ++ a ++ String space rest)%string)
    by reflexivity.
  pose proof (app_prefix "Bearer " a) as Hps.
  pose proof (app_prefix "Bearer " (a ++ String space rest)) as Hpl.
  destruct (a =? "") eqn:E.
  - apply String.eqb_eq in E.
    assert (Hs' : between_spaces ("Bearer " ++ a) = Some "") by congruence.
    assert (Hl' : between_spaces ("Bearer " ++ a ++ String space rest) = Some "")
      by congruence.
    pose proof (gate_empty long _ w Hhl Hpl Hl') as E1.
    pose proof (gate_empty short _ w Hhs Hps Hs') as E2.
    clearbody short long. rewrite E1, E2. split; reflexivity.
  - apply eqb_false_iff in E.
    pose proof (gate_verify long _ _ w Hhl Hpl Hl E) as E1.
    pose proof (gate_verify short _ _ w Hhs Hps Hs E) as E2.
    clearbody short long. rewrite E1, E2.
    destruct (jwt_verify a (JWT_SECRET w) (clock w)) as [d|e];
      split; reflexivity.
Qed.

(** The listing, when the driver lets the query through and the
    identifier binds. *)
Lemma listFavorites_run (req : request) (w : World) (v : jsval) :
  hd false (faults w) = false ->
  coerce TInt (userId req) = Some v ->
  fst (listFavorites req w) =
    Normal (favorites_listed (userId req)
              (filter (fun r => sql_eq (prop r "user_id") v)
                      (t_rows (favorites (db w))))).
Proof.
  intros Hf Hv. unfold listFavorites, try_catch, bind, ret, console_error.
  destruct (pool_query_cases select_favorites [userId req] w)
    as [(fs & Hfs & _)|(_ & E)].
  { rewrite Hfs in Hf. discriminate. }
  rewrite E, exec_select_favorites, Hv. reflexivity.
Qed.

Lemma listFavorites_cases (req : request) (w : World) :
  fst (listFavorites req w) = Normal list_failed \/
  exists v,
    fst (listFavorites req w) =
      Normal (favorites_listed (userId req)
                (filter (fun r => sql_eq (prop r "user_id") v)
                        (t_rows (favorites (db w))))).
Proof.
  destruct (pool_query_cases select_favorites [userId req] w)
    as [(fs & Hfs & E)|(Hf & E)].
  - left. unfold listFavorites, try_catch, bind, ret, console_error.
    rewrite E. reflexivity.
  - destruct (coerce TInt (userId req)) as [v|] eqn:Hv.
    + right. exists v. apply listFavorites_run; assumption.
    + left. unfold listFavorites, try_catch, bind, ret, console_error.
      rewrite E, exec_select_favorites, Hv. reflexivity.
Qed.

(** X14: if the favorites table is empty to begin with, then after any
    history of requests a listing that answers 200 lists nothing: no
    route ever adds a favorite. *)
Theorem favorites_stay_empty (history : list (env * route * request))
    (w : World) (req : request) (r : response) :
  t_rows (favorites (db w)) = [] ->
  fst (get_favorites req (serve_all history w)) = Normal r ->
  status r = 200%Z ->
  exists uid, r = favorites_listed uid [].
Proof.
  intros Hempty Hr Hs.
  destruct (serve_all_db history w) as (F & _).
  set (w1 := serve_all history w) in *.
  unfold get_favorites, protected, bind in Hr.
  pose proof (gate_frame req w1) as (Hdb & _). cbv zeta in Hdb.
  destruct (authMiddleware req w1) as [[[r'|req']|e] w2] eqn:G;
    cbn [snd] in Hdb.
  - cbn in Hr. injection Hr as <-.
    pose proof (gate_answer_status _ _ _ _ G) as [H|[H|[H|[]]]];
      rewrite <- H in Hs; discriminate Hs.
  - destruct (listFavorites_cases req' w2) as [L|[v L]]; rewrite L in Hr;
      injection Hr as <-; [discriminate Hs|].
    exists (userId req'). rewrite Hdb, F, Hempty. reflexivity.
  - discriminate Hr.
Qed.

End Protected.

(** ** From an account to its favorites *)

Section Session.
Context {B : Bcrypt} {J : Jwt} {JL : JwtLaws J}.

(** What a token in an answer of the registration handler tells. *)
Lemma register_issue_inv (req : request) (w : World) (r : response) (tok : string) :
  fst (register req w) = Normal r -> token_of r = Some tok ->
  exists uid,
    jwt_sign [("userId", uid)] (JWT_SECRET w) None (clock w) = Normal tok /\
    r = registered tok uid.
Proof.
  intros H T.
  destruct (truthy (prop (body req) "name")) eqn:Hn;
  destruct (truthy (prop (body req) "email")) eqn:He;
  destruct (truthy (prop (body req) "password")) eqn:Hp;
    try (unfold register in H; rewrite Hn, He, Hp in H; simpl in H;
         injection H as <-; discriminate T).
  rewrite (register_steps req w Hn He Hp) in H. cbv zeta in H.
  destruct (bcrypt_hash _ _ _) as [h|e];
    [|simpl in H; injection H as <-; discriminate T].
  match type of H with context [pool_query ?q ?ps ?w1] =>
    pose proof (pool_query_frame q ps w1) as (Fs & Fc & _);
    destruct (pool_query q ps w1) as [[rows|e] w2]
  end; [|simpl in H; injection H as <-; discriminate T].
  cbn [snd] in Fs, Fc. rewrite Fs, Fc in H. cbn [JWT_SECRET clock log_call] in H.
  destruct (nth_error rows 0) as [user|];
    [|simpl in H; injection H as <-; discriminate T].
  destruct (jwt_sign _ _ _ _) as [tok'|e] eqn:S0;
    simpl in H; injection H as <-; [|discriminate T].
  injection T as <-. eauto.
Qed.

(** X12: the token that registration or login returns opens the user's
    own listing: presented as "Bearer <token>" under the same secret,
    with the store answering, GET /api/favorites answers 200 with the
    [userId] of the response that carried the token and the favorites
    rows of that user.  For a token of login, the identifiers in the
    users table are taken to be integers, as the store assigns them (the
    identifier of a token of registration is one by construction). *)
Theorem issued_token_lists_own_favorites (handler : request -> M response)
    (req : request) (w : World) (r : response) (tok : string) :
  In handler [register; login] ->
  (handler = login -> integer_ids (db w)) ->
  fst (handler req w) = Normal r -> token_of r = Some tok ->
  exists uid,
    user_of r = Some uid /\
    forall greq w',
      JWT_SECRET w' = JWT_SECRET w ->
      authorization greq = Some ("Bearer " ++ tok)%string ->
      hd false (faults w') = false ->
      fst (get_favorites greq w') =
        Normal (favorites_listed uid
                  (filter (fun row => sql_eq (prop row "user_id") uid)
                          (t_rows (favorites (db w'))))).
Proof.
  intros Hh Hids Hr Ht.
  assert (I : exists n,
     in_int4 n = true /\
     jwt_sign [("userId", JNum n)] (JWT_SECRET w) None (clock w) = Normal tok /\
     user_of r = Some (JNum n)).
  { destruct Hh as [<-|[<-|[]]].
    - destruct (register_issue_inv req w r tok Hr Ht) as (uid & Hs & ->).
      destruct (register_created_inv req w tok uid Hr)
        as (_ & _ & h & _ & _ & _ & _ & -> & R).
      eexists. split; [exact R|]. split; [exact Hs|reflexivity].
    - destruct (login_issue_inv req w r tok Hr Ht) as (user & Hu & _ & Hs & ->).
      rewrite user_by_email_spec in Hu. apply find_some in Hu as [Hin _].
      destruct (Hids eq_refl user Hin) as (n & Hn & R). rewrite Hn in *.
      exists n. split; [exact R|]. split; [exact Hs|reflexivity]. }
  destruct I as (n & R & Hs & Hu). exists (JNum n). split; [exact Hu|].
  intros greq w' Hsec Hhdr Hf.
  destruct (sign_compact _ _ _ _ _ Hs) as [_ Hsp].
  assert (Hb : between_spaces ("Bearer " ++ tok) = Some tok).
  { change (Some (until_space tok) = Some tok). f_equal.
    apply until_space_no_space, Hsp. }
  pose proof (issued_token_passes (JNum n) _ _ tok greq _ w' Hs Hsec Hhdr
                (app_prefix "Bearer " tok) Hb) as G.
  unfold get_favorites, protected, bind. rewrite G.
  rewrite (listFavorites_run _ _ (JNum n));
    [reflexivity|exact Hf|apply coerce_int_num, R].
Qed.

End Session.

(** ** Every request is answered *)

Section Statuses.
Context {B : Bcrypt} {J : Jwt}.

Ltac answered := simpl; eexists; split; [reflexivity|simpl; auto 10].

Lemma register_status req w : answers_within [201; 400; 500]%Z register req w.
Proof.
  unfold answers_within.
  destruct (truthy (prop (body req) "name")) eqn:Hn;
  destruct (truthy (prop (body req) "email")) eqn:He;
  destruct (truthy (prop (body req) "password")) eqn:Hp;
    try (unfold register; rewrite Hn, He, Hp; answered; fail).
  rewrite (register_steps req w Hn He Hp). cbv zeta.
  destruct (bcrypt_hash _ _ _); [|answered].
  destruct (pool_query _ _ _) as [[rows|e] w2]; [|answered].
  destruct (nth_error rows 0); [|answered].
  destruct (jwt_sign _ _ _ _); answered.
Qed.

Lemma login_status req w : answers_within [200; 400; 404; 500]%Z login req w.
Proof.
  unfold answers_within.
  destruct (truthy (prop (body req) "email")) eqn:He;
  destruct (truthy (prop (body req) "password")) eqn:Hp;
    try (unfold login; rewrite He, Hp; answered; fail).
  rewrite (login_steps req w He Hp). cbv zeta.
  destruct (pool_query _ _ _) as [[rows|e] w1]; [|answered].
  destruct (nth_error rows 0); [|answered].
  destruct (bcrypt_compare _ _) as [[|]|e]; try (answered; fail).
  destruct (jwt_sign _ _ _ _); answered.
Qed.

Lemma addFavorite_status req w : answers_within [400; 500]%Z addFavorite req w.
Proof.
  destruct (addFavorite_plain req w) as (r & Hr & _).
  exists r. split; [exact Hr|].
  revert Hr. unfold addFavorite.
  destruct (negb (truthy (prop (body req) "name"))
            || negb (truthy (prop (body req) "poke_id"))).
  { simpl. intros E; injection E as <-. simpl. auto. }
  unfold try_catch at 1, bind at 1.
  destruct (pool_query select_favorite _ w) as [[rows|e] w1].
  2:{ simpl. intros E; injection E as <-. simpl. auto. }
  destruct (0 <? length rows)%nat.
  { simpl. intros E; injection E as <-. simpl. auto. }
  destruct (addFavorite_insert_fails (userId req) (prop (body req) "name") w1)
    as (w' & E' & _).
  unfold try_catch, bind in E'. unfold bind.
  destruct (pool_query insert_favorite _ w1) as [[rows'|e] w2]; simpl in *.
  - discriminate E'.
  - intros E; injection E as <-. simpl. auto.
Qed.

Lemma listFavorites_status req w : answers_within [200; 500]%Z listFavorites req w.
Proof.
  unfold answers_within.
  destruct (listFavorites_cases req w) as [L|[v L]]; rewrite L; answered.
Qed.

Lemma removeFavorite_status req w : answers_within [500]%Z removeFavorite req w.
Proof. unfold answers_within. rewrite removeFavorite_run. answered. Qed.

Lemma protected_status (allowed : list Z) (handler : request -> M response)
    (req : request) (w : World) :
  (forall rq wq, answers_within allowed handler rq wq) ->
  answers_within ([400; 401; 403] ++ allowed)%Z (protected handler) req w.
Proof.
  intros H. unfold answers_within, protected, bind.
  destruct (authMiddleware req w) as [[[r|req']|e] w'] eqn:G.
  - exists r. split; [reflexivity|]. apply in_or_app. left.
    exact (gate_answer_status _ _ _ _ G).
  - destruct (H req' w') as (r & Hr & Hin). exists r.
    split; [exact Hr|]. apply in_or_app. right. exact Hin.
  - destruct (gate_cases req w)
      as [(r & w1 & E & _)|(h & t & d & _ & _ & _ & _ & _ & E)];
      rewrite E in G; discriminate G.
Qed.

(** X13: every route answers every request, never leaving an exception
    uncaught, and with a status from a short list: registration 201, 400
    or 500; login 200, 400, 404 or 500; the listing 200, 400, 401, 403 or
    500; and adding or removing a favorite only 400, 401, 403 or 500,
    never a success. *)
Theorem every_request_answered (rt : route) (req : request) (w : World) :
  exists r, fst (serve rt req w) = Normal r /\ In (status r) (statuses rt).
Proof.
  assert (Sub : forall allowed allowed' handler,
     answers_within allowed handler req w ->
     (forall z, In z allowed -> In z allowed') ->
     exists r, fst (handler req w) = Normal r /\ In (status r) allowed').
  { intros allowed allowed' handler (r & Hr & Hin) Hsub. exists r. auto. }
  destruct rt; simpl serve; cbn [statuses].
  - apply (Sub _ _ _ (register_status req w)). auto.
  - apply (Sub _ _ _ (login_status req w)). auto.
  - apply (Sub _ _ _ (protected_status _ _ req w addFavorite_status)).
    simpl. intuition.
  - apply (Sub _ _ _ (protected_status _ _ req w listFavorites_status)).
    simpl. intuition.
  - apply (Sub _ _ _ (protected_status _ _ req w removeFavorite_status)).
    simpl. intuition.
Qed.

End Statuses.

(** ** Parameters are bound as text to the types of the columns *)

(** A registration whose email is the number 5 clashes with the user
    whose email is the text "5". *)
Example register_numeric_email_clashes :
  fst (@register toy_bcrypt toy_jwt
         (request0 None [("name", JStr "B"); ("email", JNum 5);
                         ("password", JStr "q")]) world5)
    = Normal register_failed.
Proof. reflexivity. Qed.

(** A favorite whose name is sent as the number 5 is the favorite "5". *)
Example add_numeric_name_already_favorited :
  fst (addFavorite (mkRequest None [("name", JNum 5); ("poke_id", JNum 25)]
                      JUndefined (JNum 1)) world5)
    = Normal already_favorited.
Proof. reflexivity. Qed.

(** The user identifier " 1", as text, lists the favorites of user 1; one
    that spells no integer fails the query. *)
Example list_textual_identifier :
  fst (listFavorites (mkRequest None [] JUndefined (JStr " 1")) world5)
    = Normal (favorites_listed (JStr " 1") (t_rows (favorites (db world5)))) /\
  fst (listFavorites (mkRequest None [] JUndefined (JStr "1.0")) world5)
    = Normal list_failed.
Proof. split; reflexivity. Qed.

(** ** The further properties at work on concrete requests *)

Lemma register_falsy_field_witness :
  truthy (prop [("name", JStr ""); ("email", JStr "a@x.com");
                ("password", JStr "p")] "name") = false /\
  @register toy_bcrypt toy_jwt
     (request0 None [("name", JStr ""); ("email", JStr "a@x.com");
                     ("password", JStr "p")]) world0
    = (Normal fields_required, world0).
Proof.
  split; [reflexivity|].
  apply (@register_falsy_field toy_bcrypt toy_jwt). left. reflexivity.
Defined.

Lemma login_falsy_field_witness :
  @login toy_bcrypt toy_jwt
     (request0 None [("email", JStr "a@x.com"); ("password", JNum 0)]) world1
    = (Normal fields_required, world1).
Proof.
  apply (@login_falsy_field toy_bcrypt toy_jwt). right. reflexivity.
Defined.

Lemma register_creates_user_witness :
  (* an email sent as the number 5 is stored as the text "5" *)
  fst (@register toy_bcrypt toy_jwt
         (request0 None [("name", JStr "B"); ("email", JNum 5);
                         ("password", JStr "q")]) world1)
    = Normal (registered "jxx" (JNum 2)) /\
  t_rows (users (db (snd (@register toy_bcrypt toy_jwt
         (request0 None [("name", JStr "B"); ("email", JNum 5);
                         ("password", JStr "q")]) world1))))
    = t_rows (users (db world1))
      ++ [[("id", JNum 2); ("name", JStr "B"); ("email", JStr "5");
           ("password", JStr "$q")]] /\
  user_by_email (db (snd (@register toy_bcrypt toy_jwt
         (request0 None [("name", JStr "B"); ("email", JNum 5);
                         ("password", JStr "q")]) world1))) (JNum 5)
    = Some [("id", JNum 2); ("name", JStr "B"); ("email", JStr "5");
            ("password", JStr "$q")].
Proof.
  exact (@register_creates_user toy_bcrypt toy_jwt
           (request0 None [("name", JStr "B"); ("email", JNum 5);
                           ("password", JStr "q")]) world1 "$q" "jxx"
           eq_refl eq_refl eq_refl eq_refl eq_refl eq_refl eq_refl eq_refl).
Defined.

Lemma register_keeps_row_on_sign_failure_witness :
  fst (@register toy_bcrypt toy_jwt (request0 None new_user) world_no_secret)
    = Normal register_failed /\
  user_by_email (db (snd (@register toy_bcrypt toy_jwt
                            (request0 None new_user) world_no_secret)))
                (JStr "a@x.com")
    = Some [("id", JNum 1); ("name", JStr "A"); ("email", JStr "a@x.com");
            ("password", JStr "$p")].
Proof.
  apply (@register_keeps_row_on_sign_failure toy_bcrypt toy_jwt
           (request0 None new_user) world_no_secret "$p" no_secret);
    reflexivity.
Defined.

Lemma login_token_needs_match_witness :
  fst (@login toy_bcrypt toy_jwt (request0 None (credentials "a@x.com" "p")) world1)
    = Normal (logged_in "jx" (JNum 1)) /\
  exists user sent,
    In user (t_rows (users (db world1))) /\
    pg_text (JStr "a@x.com") = Some sent /\
    prop user "email" = JStr sent /\
    @bcrypt_compare toy_bcrypt (JStr "p") (prop user "password") = Normal true /\
    @jwt_sign toy_jwt [("userId", prop user "id")] (Some "secret") None 0
      = Normal "jx" /\
    logged_in "jx" (JNum 1) = logged_in "jx" (prop user "id").
Proof.
  split; [reflexivity|].
  apply (@login_token_needs_match toy_bcrypt toy_jwt
           (request0 None (credentials "a@x.com" "p")) world1
           (logged_in "jx" (JNum 1)) "jx"); reflexivity.
Defined.

Lemma add_favorite_rejections_witness :
  addFavorite (mkRequest None [("name", JStr "pikachu")] JUndefined (JNum 2)) world2
    = (Normal favorite_fields_required, world2) /\
  fst (addFavorite (mkRequest None pikachu JUndefined (JNum 2)) world2)
    = Normal already_favorited.
Proof.
  split.
  - apply (proj1 (add_favorite_rejections
                    (mkRequest None [("name", JStr "pikachu")] JUndefined (JNum 2))
                    world2)).
    right. reflexivity.
  - apply (proj2 (add_favorite_rejections
                    (mkRequest None pikachu JUndefined (JNum 2)) world2));
      reflexivity.
Defined.

Lemma list_favorites_own_witness :
  (* the identifier "2" lists what 2 lists *)
  fst (listFavorites (mkRequest None [] JUndefined (JStr "2")) world2)
    = Normal (favorites_listed (JStr "2")
                [[("id", JNum 1); ("user_id", JNum 2);
                  ("name", JStr "pikachu"); ("poke_id", JNum 25)]]) /\
  (* an identifier that spells no integer *)
  fst (listFavorites (mkRequest None [] JUndefined (JStr "two")) world2)
    = Normal list_failed /\
  (* no identifier at all *)
  (coerce TInt JUndefined = Some JNull /\
   filter (fun r => sql_eq (prop r "user_id") JNull)
          (t_rows (favorites (db world2))) = []).
Proof.
  refine (conj _ (conj _ _)).
  - exact (proj1 (list_favorites_own
                    (mkRequest None [] JUndefined (JStr "2")) world2)).
  - exact (proj1 (list_favorites_own
                    (mkRequest None [] JUndefined (JStr "two")) world2)).
  - exact (proj2 (proj2 (proj2 (proj2 (list_favorites_own
                    (mkRequest None [] JUndefined JUndefined) world2))))
             (or_introl eq_refl)).
Defined.

Lemma rejected_requests_stop_at_gate_witness :
  @protected toy_jwt listFavorites (request0 None []) world2
    = (Normal token_missing, log_console "Token não fornecido" world2).
Proof.
  apply (@rejected_requests_stop_at_gate toy_jwt listFavorites
           (request0 None []) world2 _ token_missing eq_refl).
Defined.

Lemma gate_ignores_trailing_witness :
  verdict (fst (@authMiddleware toy_jwt
                  (request0 (Some "Bearer jxx anything at all") []) world0))
    = verdict (fst (@authMiddleware toy_jwt
                      (request0 (Some "Bearer jxx") []) world0)).
Proof.
  apply (@gate_ignores_trailing toy_jwt [] JUndefined JUndefined
           "jxx" "anything at all" world0 eq_refl).
Defined.

Lemma history_keeps_integer_ids_witness :
  integer_ids (db world1) /\
  integer_ids (db (@serve_all toy_bcrypt toy_jwt history0 world1)).
Proof.
  assert (H : integer_ids (db world1)).
  { intros u [<-|[]]. exists 1%Z. split; reflexivity. }
  split; [exact H|].
  apply (@history_keeps_integer_ids toy_bcrypt toy_jwt history0 world1 H).
Defined.

Lemma world1_integer_ids : integer_ids (db world1).
Proof.
  intros u [<-|[]]. exists 1%Z. split; reflexivity.
Defined.

Lemma issued_token_lists_own_favorites_witness :
  integer_ids (db world1) /\
  exists uid,
    user_of (logged_in "jx" (JNum 1)) = Some uid /\
    fst (@get_favorites toy_jwt (request0 (Some "Bearer jx") []) world5)
      = Normal (favorites_listed uid
                  (filter (fun row => sql_eq (prop row "user_id") uid)
                          (t_rows (favorites (db world5))))).
Proof.
  split; [exact world1_integer_ids|].
  destruct (@issued_token_lists_own_favorites toy_bcrypt toy_jwt toy_jwt_laws
              login (request0 None (credentials "a@x.com" "p")) world1
              (logged_in "jx" (JNum 1)) "jx"
              (or_intror (or_introl eq_refl)) (fun _ => world1_integer_ids)
              eq_refl eq_refl)
    as (uid & Hu & H).
  exists uid. split; [exact Hu|].
  apply (H (request0 (Some "Bearer jx") []) world5); reflexivity.
Defined.

Lemma favorites_stay_empty_witness :
  t_rows (favorites (db world0)) = [] /\
  fst (@get_favorites toy_jwt (request0 (Some "Bearer jx") [])
         (@serve_all toy_bcrypt toy_jwt history0 world0))
    = Normal (favorites_listed (JNum 1) []) /\
  exists uid, favorites_listed (JNum 1) [] = favorites_listed uid [].
Proof.
  split; [reflexivity|]. split; [reflexivity|].
  apply (@favorites_stay_empty toy_bcrypt toy_jwt history0 world0
           (request0 (Some "Bearer jx") [])
           (favorites_listed (JNum 1) []));
    reflexivity.
Defined.
